(** * apictx: request binding, typed errors and JSON responses

    A shallow embedding of [apictx.go] (package [apictx]) and the
    properties of its binding pipeline and of its error protocol.

    Conventions of the embedding.
    - Go's [int] is a [Z]; the code never does arithmetic on the integers
      it receives, only comparisons, so no wrap-around appears.
    - Go's [string] is a [string] (a sequence of bytes).
    - [map[string][]string] (query parameters, headers) is a
      [gmap string (list string)].
    - A value of the interface type [error] that may be [nil] is an
      [option error]; [None] is [nil].
    - A pointer argument that the code mutates ([data], the response
      writer) is threaded: the function returns the new value.
    - Calls into [log/slog] leave no trace in the model. *)

From Stdlib Require Import ZArith String Ascii List Bool Lia.
From stdpp Require Import base option list strings gmap.

#[local] Set Warnings "-clear-no-such-hyp".

Local Open Scope string_scope.
Local Open Scope Z_scope.

(** ** net/http constants *)

Definition http_StatusOK : Z := 200.
Definition http_StatusBadRequest : Z := 400.
Definition http_StatusInternalServerError : Z := 500.

(** ** Errors

    The dynamic types an [error] value has in this package:
    [errorString] is what [errors.New] and [fmt.Errorf] without a wrapping
    verb build, [wrapError] is what [fmt.Errorf] with the wrapping verb
    builds (it has [Unwrap]), [ptrHttpError] is a [*HttpError]. *)

Inductive error : Type :=
  | errorString (s : string)
  | wrapError (msg : string) (err : error)
  | ptrHttpError (e : HttpError)
with HttpError : Type :=
  | mkHttpError (err : option error) (msg : string) (statusCode : Z).

(** [func (e HttpError) Error() string] *)
Definition HttpError_Error (e : HttpError) : string :=
  match e with mkHttpError _ msg _ => msg end.

(** [func (e HttpError) Cause() error] *)
Definition HttpError_Cause (e : HttpError) : option error :=
  match e with mkHttpError err _ _ => err end.

(** [func (e HttpError) Status() int] *)
Definition HttpError_Status (e : HttpError) : Z :=
  match e with mkHttpError _ _ statusCode => statusCode end.

(** The [Error()] method of every error value. *)
Definition error_Error (e : error) : string :=
  match e with
  | errorString s => s
  | wrapError msg _ => msg
  | ptrHttpError h => HttpError_Error h
  end.

(** [errors.As(err, &httpErr)] with [httpErr] of type [*HttpError]: the
    first [*HttpError] on the [Unwrap] chain of [err].  [HttpError] has a
    [Cause] method and no [Unwrap] method, so the chain ends at it. *)
Fixpoint errors_As_chain (err : error) : option HttpError :=
  match err with
  | errorString _ => None
  | wrapError _ inner => errors_As_chain inner
  | ptrHttpError h => Some h
  end.

Definition errors_As (err : option error) : option HttpError :=
  match err with
  | None => None
  | Some e => errors_As_chain e
  end.

(** [NewHttpError(msg, err, statsuCode...)] *)
Definition NewHttpError (msg : string) (err : option error)
    (statsuCode : list Z) : HttpError :=
  let statusCode := http_StatusBadRequest in
  let statusCode :=
    if (length statsuCode =? 1)%nat
       && (200 <=? default 0 (statsuCode !! 0%nat))
       && (default 0 (statsuCode !! 0%nat) <=? 520)
    then default 0 (statsuCode !! 0%nat)
    else statusCode in
  mkHttpError err msg statusCode.

(** ** JSON documents

    The syntax tree of a JSON text as [encoding/json] reads and writes it.
    A number token without fraction and exponent is [JInt] of its value,
    any other number token is [JFloat] of its text.  The members of an
    object keep their order and their duplicates. *)

#[local] Set Warnings "-register-all".

Inductive json : Type :=
  | JNull
  | JBool (b : bool)
  | JInt (n : Z)
  | JFloat (lit : string)
  | JString (s : string)
  | JArray (elems : list json)
  | JObject (members : list (string * json)).

(** ** The target of a binding

    [Bind] receives a pointer to a struct and inspects it by reflection.
    A struct value is the list of its fields in declaration order; each
    field has its name, the value of its [query] tag (empty when the field
    has none, as [Tag.Get] returns) and its current value.  The value
    determines the field's [reflect.Kind]: [VString] is [reflect.String],
    [VInt] is [reflect.Int], and [VBool] stands for the kinds that
    [BindQueryParams] has no case for.  Field names are taken as the JSON
    keys of the fields (no [json] tags). *)

Inductive value : Type :=
  | VString (s : string)
  | VInt (n : Z)
  | VBool (b : bool).

Record StructField : Type := mkField {
  Name : string;
  Tag_query : string;
  Value : value
}.

Abbreviation target := (list StructField).

Definition setValue (f : StructField) (v : value) : StructField :=
  {| Name := Name f; Tag_query := Tag_query f; Value := v |}.




(** ** Requests and response writers *)

Record Request : Type := mkRequest {
  Method : string;
  URL_Query : gmap string (list string);   (* [r.URL.Query()] *)
  Header : gmap string (list string);
  Body : string
}.

(** [Header.Get]: the first value of the key, or the empty string.  The
    only key the package reads and writes, [Content-Type], is in canonical
    form already. *)
Definition Header_Get (h : gmap string (list string)) (key : string) : string :=
  match h !! key with
  | Some (v :: _) => v
  | _ => ""
  end.

(** [Header.Set]: the key gets the single value. *)
Definition Header_Set (key v : string) (h : gmap string (list string))
    : gmap string (list string) :=
  <[key := [v]]> h.

(** An [http.ResponseWriter]: its header map, the status line once it is
    written, and the bytes of the body.  As in [net/http], the first
    [WriteHeader] decides the status and later calls change nothing, and a
    [Write] before any [WriteHeader] writes status 200 first.  The check
    by which the standard writers refuse a status below 100 or above 999
    is theirs and is not part of the interface. *)
Record ResponseWriter : Type := mkWriter {
  w_header : gmap string (list string);
  w_status : option Z;
  w_body : string
}.

Definition newWriter : ResponseWriter :=
  {| w_header := ∅; w_status := None; w_body := "" |}.

Definition w_Header_Set (key v : string) (w : ResponseWriter) : ResponseWriter :=
  {| w_header := Header_Set key v (w_header w);
     w_status := w_status w;
     w_body := w_body w |}.

Definition WriteHeader (statusCode : Z) (w : ResponseWriter) : ResponseWriter :=
  match w_status w with
  | Some _ => w
  | None => {| w_header := w_header w;
               w_status := Some statusCode;
               w_body := w_body w |}
  end.

Definition Write (bytes : string) (w : ResponseWriter) : ResponseWriter :=
  let w := WriteHeader http_StatusOK w in
  {| w_header := w_header w;
     w_status := w_status w;
     w_body := w_body w +:+ bytes |}.

Record User : Type := mkUser { ID : string }.

Record Context : Type := mkContext {
  CurrentUser : option User;
  writer : ResponseWriter;
  request : Request
}.

(** [NewContext(w, r, user)] *)
Definition NewContext (w : ResponseWriter) (r : Request) (user : option User)
    : Context :=
  {| CurrentUser := user; writer := w; request := r |}.

Definition setWriter (c : Context) (w : ResponseWriter) : Context :=
  {| CurrentUser := CurrentUser c; writer := w; request := request c |}.

(** ** strconv.Atoi

    [Atoi(s)] is [ParseInt(s, 10, 0)] with 64-bit [int]; its fast path for
    short inputs returns the same results.  [NumErr] is the [Err] field of
    the [*NumError] it returns. *)

Inductive NumErr : Type := ErrSyntax | ErrRange.

Definition maxUint64 : Z := 18446744073709551615.

Definition digitOf (c : ascii) : option Z :=
  let n := Z.of_N (N_of_ascii c) in
  if (48 <=? n) && (n <=? 57) then Some (n - 48) else None.

(** The loop of [ParseUint(s, 10, 64)] over the bytes of [s], with the
    accumulator [n]. *)
Fixpoint ParseUint_loop (s : string) (n : Z) : NumErr + Z :=
  match s with
  | EmptyString => inr n
  | String c rest =>
      match digitOf c with
      | None => inl ErrSyntax
      | Some d =>
          if maxUint64 / 10 + 1 <=? n then inl ErrRange
          else
            let n1 := n * 10 + d in
            if maxUint64 <? n1 then inl ErrRange
            else ParseUint_loop rest n1
      end
  end.

Definition ParseUint (s : string) : NumErr + Z :=
  match s with
  | EmptyString => inl ErrSyntax
  | _ => ParseUint_loop s 0
  end.

Definition ParseInt (s : string) : NumErr + Z :=
  match s with
  | EmptyString => inl ErrSyntax
  | String c rest =>
      let neg := Ascii.eqb c "-" in
      let digits := if Ascii.eqb c "+" || neg then rest else s in
      let cutoff := 2 ^ 63 in
      match ParseUint digits with
      | inl ErrSyntax => inl ErrSyntax
      | inl ErrRange => inl ErrRange
      | inr un =>
          if negb neg && (cutoff <=? un) then inl ErrRange
          else if neg && (cutoff <? un) then inl ErrRange
          else inr (if neg then - un else un)
      end
  end.

Definition Atoi (s : string) : NumErr + Z := ParseInt s.

Definition NumErr_Error (e : NumErr) : string :=
  match e with
  | ErrSyntax => "invalid syntax"
  | ErrRange => "value out of range"
  end.

(** ** encoding/json on structs

    [fieldByKey] finds the field an object key names: the field whose name
    is the key, otherwise the first field whose name equals the key under
    the case folding of [encoding/json].  That folding is Unicode simple
    folding (the long s folds to [s], the Kelvin sign to [k]); the model
    takes it as the parameter [equalFold], which tells whether a field
    name and a key are equal under it. *)

Fixpoint indexWhere {A : Type} (p : A -> bool) (l : list A) : option nat :=
  match l with
  | [] => None
  | x :: rest => if p x then Some 0%nat else S <$> indexWhere p rest
  end.

Section StructCoding.

Variable equalFold : string -> string -> bool.

Definition fieldByKey (key : string) (t : target) : option nat :=
  match indexWhere (fun f => String.eqb (Name f) key) t with
  | Some i => Some i
  | None => indexWhere (fun f => equalFold (Name f) key) t
  end.

Definition minInt64 : Z := - 2 ^ 63.
Definition maxInt64 : Z := 2 ^ 63 - 1.

(** What the decoder stores into a field that holds [v] when the JSON
    value is [j]; [None] is an [UnmarshalTypeError], which leaves the
    field as it is.  A JSON [null] leaves a field of these kinds as it is
    and is no error. *)
Definition storeValue (v : value) (j : json) : option value :=
  match j, v with
  | JNull, _ => Some v
  | JString s, VString _ => Some (VString s)
  | JInt n, VInt _ =>
      if (minInt64 <=? n) && (n <=? maxInt64) then Some (VInt n) else None
  | JBool b, VBool _ => Some (VBool b)
  | _, _ => None
  end.

(** An [*UnmarshalTypeError]: the offending JSON value and the name of the
    field it was meant for (empty at the top level). *)
Record UnmarshalTypeError : Type := mkUnmarshalTypeError {
  ute_Value : json;
  ute_Field : string
}.

(** [saveError]: the decoder keeps the first error and goes on. *)
Definition saveError (saved : option UnmarshalTypeError)
    (e : UnmarshalTypeError) : option UnmarshalTypeError :=
  match saved with
  | Some _ => saved
  | None => Some e
  end.

(** The members of an object, in order, decoded into the struct. *)
Fixpoint decodeMembers (members : list (string * json)) (t : target)
    (saved : option UnmarshalTypeError) : target * option UnmarshalTypeError :=
  match members with
  | [] => (t, saved)
  | (key, j) :: rest =>
      match fieldByKey key t with
      | None => decodeMembers rest t saved
      | Some i =>
          match t !! i with
          | None => decodeMembers rest t saved
          | Some f =>
              match storeValue (Value f) j with
              | Some v => decodeMembers rest (<[i := setValue f v]> t) saved
              | None =>
                  decodeMembers rest t
                    (saveError saved
                       {| ute_Value := j; ute_Field := Name f |})
              end
          end
      end
  end.

(** A document decoded into a pointer to a struct. *)
Definition unmarshalStruct (doc : json) (t : target)
    : target * option UnmarshalTypeError :=
  match doc with
  | JNull => (t, None)
  | JObject members => decodeMembers members t None
  | _ => (t, Some {| ute_Value := doc; ute_Field := "" |})
  end.

End StructCoding.

Definition marshalValue (v : value) : json :=
  match v with
  | VString s => JString s
  | VInt n => JInt n
  | VBool b => JBool b
  end.

(** A struct marshals to an object with one member per field, in
    declaration order. *)
Definition marshalStruct (t : target) : json :=
  JObject (map (fun f => (Name f, marshalValue (Value f))) t).

(** ** The error payload *)

Record ApiErrorResponse : Type := mkApiErrorResponse {
  Code : Z;                 (* [interface{}], always an [int] constant *)
  Message : string;         (* [json:"message"] *)
  Cause : option error      (* [json:"-"] *)
}.

(** The struct tags of [ApiErrorResponse] name two members; the dash tag
    keeps [Cause] out. *)
Definition marshalApiErrorResponse (e : ApiErrorResponse) : json :=
  JObject [("code", JInt (Code e)); ("message", JString (Message e))].

(** The line feed [json.Encoder] ends every value with. *)
Definition newline : string := String "010"%char "".

(** ** Error values and outcomes at the adapter

    The value of the interface type [error] that a function returns to
    the adapter: [nil], an error of one of the dynamic types above, or a
    nil [*HttpError] stored in the interface, which is not [nil]. *)
Inductive errorValue : Type :=
  | nilError
  | anError (e : error)
  | nilHttpError.

(** The outcome of a call of the adapter: it returned, or it panicked,
    with the response writer in the given state. *)
Inductive Outcome : Type :=
  | Returned (w : ResponseWriter)
  | Panicked (w : ResponseWriter).

(** A function that works through the context it got and never
    re-points it, as the methods of [Context] do: it leaves the writer
    of the adapter in the state of the writer of its context.  Its error
    is [nil] or a non-nil error. *)
Definition throughContext (f : Context -> Context * option error)
    : Context -> ResponseWriter * errorValue :=
  fun ctx =>
    let '(ctx', err) := f ctx in
    (writer ctx',
     match err with
     | None => nilError
     | Some e => anError e
     end).

(** ** The package

    The functions of [apictx.go], over the library functions whose text
    output the package passes on without looking at it. *)

Section Apictx.

(** [strconv.Quote], used by the text of a [*strconv.NumError]. *)
Variable strconv_Quote : string -> string.

(** The text [json.Encoder] produces for a document, before the newline
    it appends. *)
Variable json_text : json -> string.

(** [json.Decoder] reading the next value of a stream: the document, or
    the text of the read or syntax error. *)
Variable json_scan : string -> string + json.

(** Whether a field name and an object key are equal under the case
    folding of [encoding/json]. *)
Variable equalFold : string -> string -> bool.

(** The text of an [*json.UnmarshalTypeError]. *)
Variable UnmarshalTypeError_Error : UnmarshalTypeError -> string.

(** [validator.New().Struct(data)]: the [Field()] of every
    [FieldError] it reports, in order; the empty list is a [nil] error. *)
Variable validator_Struct : target -> list string.

(** [NumError.Error()] for an error of [Atoi] on [num]. *)
Definition NumError_Error (num : string) (e : NumErr) : string :=
  "strconv.Atoi: parsing " +:+ strconv_Quote num +:+ ": " +:+ NumErr_Error e.

(** One turn of the loop of [BindQueryParams], on field [f]: the field
    after the turn, or the error the function returns from it. *)
Definition bindField (params : gmap string (list string)) (f : StructField)
    : error + StructField :=
  let tag := Tag_query f in
  if negb (String.eqb tag "") then
    match params !! tag with
    | Some (paramValue :: _) =>
        match Value f with
        | VString _ => inr (setValue f (VString paramValue))
        | VInt _ =>
            match Atoi paramValue with
            | inl err =>
                inl (errorString
                       ("failed to convert parameter " +:+ tag +:+
                        " to int: " +:+ NumError_Error paramValue err))
            | inr intValue => inr (setValue f (VInt intValue))
            end
        | _ => inr f
        end
    | _ => inr f
    end
  else inr f.

(** The loop over the fields from the current one on. *)
Fixpoint bindFields (params : gmap string (list string))
    (fields : list StructField) : list StructField * option error :=
  match fields with
  | [] => ([], None)
  | f :: rest =>
      match bindField params f with
      | inl err => (f :: rest, Some err)
      | inr f' =>
          let '(rest', err) := bindFields params rest in
          (f' :: rest', err)
      end
  end.

(** [Context.BindQueryParams(data, params)] *)
Definition BindQueryParams (c : Context) (data : target)
    (params : gmap string (list string)) : target * option error :=
  bindFields params data.

(** [json.NewDecoder(body).Decode(data)] *)
Definition Decoder_Decode (body : string) (data : target)
    : target * option string :=
  match json_scan body with
  | inl text => (data, Some text)
  | inr doc =>
      let '(data', err) := unmarshalStruct equalFold doc data in
      (data', UnmarshalTypeError_Error <$> err)
  end.

(** [Context.BindJSONBody(data, body)] *)
Definition BindJSONBody (c : Context) (data : target) (body : string)
    : target * option error :=
  let '(data', err) := Decoder_Decode body data in
  match err with
  | Some text =>
      (data', Some (errorString ("failed to decode JSON body: " +:+ text)))
  | None => (data', None)
  end.

(** [Context.BindWithoutValidation(data)] *)
Definition BindWithoutValidation (c : Context) (data : target)
    : target * option error :=
  let queryParams := URL_Query (request c) in
  let '(data, err) := BindQueryParams c data queryParams in
  match err with
  | Some _ => (data, err)
  | None =>
      let contentType := Header_Get (Header (request c)) "Content-Type" in
      let '(data, err) :=
        if String.eqb contentType "application/json"
        then BindJSONBody c data (Body (request c))
        else (data, None) in
      match err with
      | Some _ => (data, err)
      | None => (data, None)
      end
  end.

(** [strings.Join] *)
Fixpoint strings_Join (elems : list string) (sep : string) : string :=
  match elems with
  | [] => ""
  | [e] => e
  | e :: rest => e +:+ sep +:+ strings_Join rest sep
  end.

(** [Context.Bind(data)] *)
Definition Bind (c : Context) (data : target) : target * option HttpError :=
  let '(data, err) := BindWithoutValidation c data in
  match err with
  | Some _ =>
      (data,
       Some (NewHttpError "failed to read inputs" err [http_StatusBadRequest]))
  | None =>
      match validator_Struct data with
      | [] => (data, None)
      | fieldErrors =>
          let errMsgs :=
            map (fun e => "validation failed for " +:+ e) fieldErrors in
          (data,
           Some (NewHttpError
                   ("validation error(s): " +:+ strings_Join errMsgs ", ")
                   None [http_StatusBadRequest]))
      end
  end.

(** [json.NewEncoder(w).Encode(v)] for a value that marshals to [doc]:
    the text of the document and a newline, in one [Write]. *)
Definition Encoder_Encode (doc : json) (w : ResponseWriter) : ResponseWriter :=
  Write (json_text doc +:+ newline) w.

(** [Context.JSON(code, data)] *)
Definition JSON (c : Context) (code : Z) (data : target) : Context :=
  let statusCode := code in
  let statusCode := if statusCode =? 0 then http_StatusOK else statusCode in
  let w := w_Header_Set "Content-Type" "application/json;charset=utf-8"
             (writer c) in
  let w := WriteHeader statusCode w in
  setWriter c (Encoder_Encode (marshalStruct data) w).

(** [HandleError(w, r, err, overRideStatusCode...)] *)
Definition HandleError (w : ResponseWriter) (r : Request) (err : option error)
    (overRideStatusCode : list Z) : ResponseWriter :=
  let statusCode := http_StatusInternalServerError in
  let statusCode :=
    if (length overRideStatusCode =? 1)%nat
    then default 0 (overRideStatusCode !! 0%nat)
    else statusCode in
  let '(statusCode, errRes) :=
    match errors_As err with
    | Some httpErr =>
        (HttpError_Status httpErr,
         {| Code := 25600;       (* 0x6400 *)
            Message := HttpError_Error httpErr;
            Cause := HttpError_Cause httpErr |})
    | None =>
        (statusCode,
         {| Code := 0; Message := "Internal error"; Cause := None |})
    end in
  let w := w_Header_Set "Content-Type" "application/json;charset=utf-8" w in
  let w := WriteHeader statusCode w in
  Encoder_Encode (marshalApiErrorResponse errRes) w.

(** [Handler(c)].  A [ContextFunc] gets a pointer to the context the
    adapter made.  What the adapter sees of the call is the error value
    it returned and the state in which it left the response writer [w]
    the context was made with.  The function need not write through the
    context it got: the exported [NewContext] lets it point the context
    at another writer, and what it writes there does not reach [w].  On
    an error the adapter calls [HandleError] on its own [w].  For a nil
    [*HttpError] in the error value, [errors.As] in [HandleError] finds
    the nil pointer and [httpErr.Error()] dereferences it before anything
    is written: the call panics. *)
Definition ContextFunc : Type := Context -> ResponseWriter * errorValue.

Definition Handler (c : ContextFunc) (w : ResponseWriter) (r : Request)
    : Outcome :=
  let ctx := {| CurrentUser := None; writer := w; request := r |} in
  let '(w, err) := c ctx in
  match err with
  | nilError => Returned w
  | anError e => Returned (HandleError w r (Some e) [])
  | nilHttpError => Panicked w
  end.

End Apictx.

(** ** Notions the properties are stated with *)

(** A document mentions a field when it is an object with a member whose
    key is the field's name or equals it under the case folding. *)
Definition mentions (equalFold : string -> string -> bool) (doc : json)
    (name : string) : bool :=
  match doc with
  | JObject members =>
      existsb (fun kv => String.eqb name (fst kv) || equalFold name (fst kv))
        members
  | _ => false
  end.


(** ** Sample data

    Concrete library functions and inputs on which the package is run. *)

Definition sample_Quote (s : string) : string :=
  String "034"%char (s +:+ String "034"%char "").

Definition sample_text (doc : json) : string :=
  match doc with
  | JObject [] => "{}"
  | _ => "<json>"
  end.

(** The text of the body [{"name":"Alice"}]. *)
Definition sampleBodyText : string :=
  "{" +:+ sample_Quote "name" +:+ ":" +:+ sample_Quote "Alice" +:+ "}".

Definition sampleDoc : json := JObject [("name", JString "Alice")].

Definition sampleBound : target :=
  [ {| Name := "Name"; Tag_query := "name"; Value := VString "Bob" |};
    {| Name := "Age"; Tag_query := "age"; Value := VInt 42 |};
    {| Name := "Admin"; Tag_query := "admin"; Value := VBool false |} ].

(** A scanner that knows three bodies: the empty one, the sample body,
    and the text [sample_text] gives every non-empty object. *)
Definition sample_scan (body : string) : string + json :=
  if String.eqb body "" then inl "EOF"
  else if String.eqb body sampleBodyText then inr sampleDoc
  else if String.eqb body ("<json>" +:+ newline)
       then inr (marshalStruct sampleBound)
  else inl "invalid character".

(** The folding of the sample runs: the letters A to Z of ASCII only. *)
Definition asciiLower (c : ascii) : ascii :=
  let n := N_of_ascii c in
  if ((65 <=? n) && (n <=? 90))%N then ascii_of_N (n + 32) else c.

Fixpoint asciiFold (s : string) : string :=
  match s with
  | EmptyString => EmptyString
  | String c rest => String (asciiLower c) (asciiFold rest)
  end.

Definition sample_equalFold (a b : string) : bool :=
  String.eqb (asciiFold a) (asciiFold b).

Definition sample_typeError (e : UnmarshalTypeError) : string :=
  "json: cannot unmarshal into Go struct field " +:+ ute_Field e.

Definition sample_validator (t : target) : list string := [].

Definition sampleRequest : Request :=
  {| Method := "GET"; URL_Query := ∅; Header := ∅; Body := "" |}.

Definition sampleContext : Context :=
  {| CurrentUser := None; writer := newWriter; request := sampleRequest |}.

(** The struct of the package's README: [Name] and [Age] bound from the
    query, with a [bool] field added. *)
Definition sampleTarget : target :=
  [ {| Name := "Name"; Tag_query := "name"; Value := VString "" |};
    {| Name := "Age"; Tag_query := "age"; Value := VInt 0 |};
    {| Name := "Admin"; Tag_query := "admin"; Value := VBool false |} ].

Definition sampleParams : gmap string (list string) :=
  <["name" := ["Bob"; "Rob"]]> (<["age" := ["42"]]> ∅).

Definition sampleBadParams : gmap string (list string) :=
  <["name" := ["Bob"]]> (<["age" := ["abc"]]> (<["admin" := ["true"]]> ∅)).

Definition sampleHalfBound : target :=
  [ {| Name := "Name"; Tag_query := "name"; Value := VString "Bob" |};
    {| Name := "Age"; Tag_query := "age"; Value := VInt 0 |};
    {| Name := "Admin"; Tag_query := "admin"; Value := VBool false |} ].

Definition sampleConversionError : error :=
  errorString
    ("failed to convert parameter age to int: strconv.Atoi: parsing " +:+
     sample_Quote "abc" +:+ ": invalid syntax").

Definition jsonHeader : gmap string (list string) :=
  <["Content-Type" := ["application/json"]]> ∅.

(** [?name=Bob&name=Rob&age=42] with the sample body as JSON. *)
Definition sampleJSONContext : Context :=
  {| CurrentUser := None; writer := newWriter;
     request := {| Method := "POST"; URL_Query := sampleParams;
                   Header := jsonHeader; Body := sampleBodyText |} |}.

(** [?name=Bob&age=abc&admin=true] with the sample body as JSON. *)
Definition sampleBadContext : Context :=
  {| CurrentUser := None; writer := newWriter;
     request := {| Method := "POST"; URL_Query := sampleBadParams;
                   Header := jsonHeader; Body := sampleBodyText |} |}.

(** The same query with the body sent as a form. *)
Definition sampleFormContext : Context :=
  {| CurrentUser := None; writer := newWriter;
     request := {| Method := "POST"; URL_Query := sampleParams;
                   Header := <["Content-Type" :=
                                 ["application/x-www-form-urlencoded"]]> ∅;
                   Body := sampleBodyText |} |}.

Definition sampleDecoded : target :=
  [ {| Name := "Name"; Tag_query := "name"; Value := VString "Alice" |};
    {| Name := "Age"; Tag_query := "age"; Value := VInt 42 |};
    {| Name := "Admin"; Tag_query := "admin"; Value := VBool false |} ].

(** A validator that finds [Name] and [Age] wanting. *)
Definition failing_validator (t : target) : list string := ["Name"; "Age"].

(** ** The handler of the README

    [ExampleHandler] of the package's README: it binds the query and the
    body into a struct with a [Name] and an [Age], returns the error of
    [Bind] and otherwise answers with the struct. *)

Definition exampleData : target :=
  [ {| Name := "Name"; Tag_query := "name"; Value := VString "" |};
    {| Name := "Age"; Tag_query := "age"; Value := VInt 0 |} ].

Definition ExampleHandler (strconv_Quote : string -> string)
    (json_text : json -> string) (json_scan : string -> string + json)
    (equalFold : string -> string -> bool)
    (UnmarshalTypeError_Error : UnmarshalTypeError -> string)
    (validator_Struct : target -> list string)
    : Context -> Context * option error :=
  fun ctx =>
    let data := exampleData in
    let '(data, err) :=
      Bind strconv_Quote json_scan equalFold UnmarshalTypeError_Error validator_Struct
        ctx data in
    match err with
    | Some httpErr => (ctx, Some (ptrHttpError httpErr))
    | None => (JSON json_text ctx http_StatusOK data, None)
    end.

(** ** Decimal numerals

    The strings [Atoi] can accept: an optional sign and one or more
    decimal digits. *)

Fixpoint allDigits (s : string) : bool :=
  match s with
  | EmptyString => true
  | String c rest =>
      match digitOf c with
      | Some _ => allDigits rest
      | None => false
      end
  end.

Definition isNumeral (s : string) : bool :=
  match s with
  | EmptyString => false
  | String c rest =>
      let digits :=
        if Ascii.eqb c "+" || Ascii.eqb c "-" then rest else s in
      negb (String.eqb digits "") && allDigits digits
  end.

(** ** More sample data *)

(** A writer a handler has answered on already. *)
Definition writtenWriter : ResponseWriter :=
  {| w_header := <["Content-Type" := ["text/plain"]]> ∅;
     w_status := Some 200;
     w_body := "ok" |}.

(** The sample query with a body that is no JSON text. *)
Definition sampleMalformedContext : Context :=
  {| CurrentUser := None; writer := newWriter;
     request := {| Method := "POST"; URL_Query := sampleParams;
                   Header := jsonHeader; Body := "name=Alice" |} |}.

(** The sample parameters with the values after the first left out. *)
Definition sampleFirstParams : gmap string (list string) :=
  <["name" := ["Bob"]]> (<["age" := ["42"]]> ∅).

(** A handler function that fails with a plain error. *)
Definition failingFunc (ctx : Context) : ResponseWriter * errorValue :=
  (writer ctx, anError (errorString "boom")).

(** * Properties *)

(** ** strconv.Atoi on sample inputs *)

Example Atoi_42 : Atoi "42" = inr 42.
Proof. reflexivity. Qed.

Example Atoi_neg : Atoi "-7" = inr (-7).
Proof. reflexivity. Qed.

Example Atoi_abc : Atoi "abc" = inl ErrSyntax.
Proof. reflexivity. Qed.

Example Atoi_empty : Atoi "" = inl ErrSyntax.
Proof. reflexivity. Qed.

Example Atoi_max : Atoi "9223372036854775807" = inr 9223372036854775807.
Proof. vm_compute. reflexivity. Qed.

Example Atoi_over : Atoi "9223372036854775808" = inl ErrRange.
Proof. vm_compute. reflexivity. Qed.

Example Atoi_min : Atoi "-9223372036854775808" = inr (-9223372036854775808).
Proof. vm_compute. reflexivity. Qed.


(** ** The error model *)

Lemma NewHttpError_fields msg cause statsuCode :
  HttpError_Error (NewHttpError msg cause statsuCode) = msg ∧
  HttpError_Cause (NewHttpError msg cause statsuCode) = cause.
Proof. split; reflexivity. Qed.

Lemma NewHttpError_one msg cause (s : Z) :
  HttpError_Status (NewHttpError msg cause [s]) =
  if (200 <=? s) && (s <=? 520) then s else http_StatusBadRequest.
Proof. reflexivity. Qed.

(** C7: the status of [NewHttpError(msg, cause, status...)] is the
    supplied status when exactly one value in [200,520] is supplied, and
    400 when none is supplied or the supplied value is outside [200,520]
    (999 falls back to 400); the message and the cause are stored
    unchanged. *)
Theorem NewHttpError_status msg cause :
  (∀ s, 200 <= s <= 520 →
        HttpError_Status (NewHttpError msg cause [s]) = s) ∧
  HttpError_Status (NewHttpError msg cause []) = 400 ∧
  (∀ s, ¬ (200 <= s <= 520) →
        HttpError_Status (NewHttpError msg cause [s]) = 400) ∧
  HttpError_Status (NewHttpError "x" None [999]) = 400 ∧
  (∀ statsuCode,
     HttpError_Error (NewHttpError msg cause statsuCode) = msg ∧
     HttpError_Cause (NewHttpError msg cause statsuCode) = cause).
Proof.
  split; [|split; [|split; [|split]]].
  - intros s Hs. rewrite NewHttpError_one.
    destruct (Z.leb_spec 200 s), (Z.leb_spec s 520); simpl; lia.
  - reflexivity.
  - intros s Hs. rewrite NewHttpError_one. unfold http_StatusBadRequest.
    destruct (Z.leb_spec 200 s), (Z.leb_spec s 520); simpl; lia.
  - reflexivity.
  - intros statsuCode. apply NewHttpError_fields.
Qed.

Lemma NewHttpError_status_witness :
  HttpError_Status (NewHttpError "not found" None [404]) = 404 ∧
  HttpError_Status (NewHttpError "teapot" None [150]) = 400.
Proof.
  destruct (NewHttpError_status "not found" None) as (Hin & _ & _ & _ & _).
  destruct (NewHttpError_status "teapot" None) as (_ & _ & Hout & _ & _).
  split; [apply Hin | apply Hout]; lia.
Defined.

Lemma NewHttpError_many msg cause (s1 s2 : Z) (rest : list Z) :
  NewHttpError msg cause (s1 :: s2 :: rest) =
  mkHttpError cause msg http_StatusBadRequest.
Proof. reflexivity. Qed.

(** ** The response writer *)

Section Responses.

Variable json_text : json -> string.

(** What a writer with no status line yet holds after the three calls
    both response paths end with. *)
Lemma respond_fresh (w : ResponseWriter) (statusCode : Z) (doc : json) :
  w_status w = None →
  Encoder_Encode json_text doc
    (WriteHeader statusCode
       (w_Header_Set "Content-Type" "application/json;charset=utf-8" w)) =
  {| w_header := <["Content-Type" := ["application/json;charset=utf-8"]]>
                   (w_header w);
     w_status := Some statusCode;
     w_body := w_body w +:+ json_text doc +:+ newline |}.
Proof.
  intros Hfresh. unfold Encoder_Encode, Write, WriteHeader, w_Header_Set.
  simpl. rewrite Hfresh. simpl. reflexivity.
Qed.

Lemma HandleError_None w r err ov :
  errors_As err = None →
  HandleError json_text w r err ov =
  Encoder_Encode json_text
    (JObject [("code", JInt 0); ("message", JString "Internal error")])
    (WriteHeader (match ov with
                  | [s] => s
                  | _ => http_StatusInternalServerError
                  end)
       (w_Header_Set "Content-Type" "application/json;charset=utf-8" w)).
Proof.
  intros Has. unfold HandleError. rewrite Has.
  destruct ov as [|s [|s' rest]]; reflexivity.
Qed.

Lemma HandleError_Some w r err ov cause msg statusCode :
  errors_As err = Some (mkHttpError cause msg statusCode) →
  HandleError json_text w r err ov =
  Encoder_Encode json_text
    (JObject [("code", JInt 25600); ("message", JString msg)])
    (WriteHeader statusCode
       (w_Header_Set "Content-Type" "application/json;charset=utf-8" w)).
Proof.
  intros Has. unfold HandleError. rewrite Has. reflexivity.
Qed.

(** C1, as amended: for an error that is not and does not wrap an
    [HttpError], [HandleError] emits the payload
    [{"code":0,"message":"Internal error"}]; the response status is 500
    when no override or more than one is supplied, and the override when
    exactly one is supplied. *)
Theorem HandleError_unclassified w r err ov :
  errors_As err = None →
  w_status w = None →
  w_body (HandleError json_text w r err ov) =
    w_body w +:+
    json_text (JObject [("code", JInt 0);
                        ("message", JString "Internal error")]) +:+
    newline ∧
  w_header (HandleError json_text w r err ov) !! "Content-Type" =
    Some ["application/json;charset=utf-8"] ∧
  w_status (HandleError json_text w r err ov) =
    Some (match ov with [s] => s | _ => 500 end).
Proof.
  intros Has Hfresh.
  rewrite (HandleError_None w r err ov Has), (respond_fresh _ _ _ Hfresh).
  simpl. rewrite lookup_insert_eq. repeat split.
Qed.

(** C5: for an error that is or wraps an [HttpError], [HandleError] uses
    the status of that [HttpError] as the response status, whatever
    override is supplied, and emits the payload with the code 0x6400 and
    the message of the [HttpError]; the code is the same for all
    classified errors and is not the 0 of the unclassified ones; in both
    branches the payload has the members [code] and [message] only, so
    the cause is not serialized. *)
Theorem HandleError_classified w r err ov cause msg statusCode :
  errors_As err = Some (mkHttpError cause msg statusCode) →
  w_status w = None →
  w_status (HandleError json_text w r err ov) = Some statusCode ∧
  w_body (HandleError json_text w r err ov) =
    w_body w +:+
    json_text (JObject [("code", JInt 25600); ("message", JString msg)]) +:+
    newline ∧
  w_header (HandleError json_text w r err ov) !! "Content-Type" =
    Some ["application/json;charset=utf-8"] ∧
  25600 ≠ 0 ∧
  (∀ e : ApiErrorResponse,
     marshalApiErrorResponse e =
     JObject [("code", JInt (Code e)); ("message", JString (Message e))]) ∧
  (∀ err', errors_As err' = None →
     w_body (HandleError json_text w r err' ov) =
       w_body w +:+
       json_text (JObject [("code", JInt 0);
                           ("message", JString "Internal error")]) +:+
       newline).
Proof.
  intros Has Hfresh.
  rewrite (HandleError_Some w r err ov cause msg statusCode Has),
          (respond_fresh _ _ _ Hfresh).
  simpl. rewrite lookup_insert_eq.
  split; [reflexivity|]. split; [reflexivity|]. split; [reflexivity|].
  split; [lia|]. split; [reflexivity|].
  intros err' Has'.
  rewrite (HandleError_None w r err' ov Has'), (respond_fresh _ _ _ Hfresh).
  reflexivity.
Qed.

(** C10: with two or more status arguments [NewHttpError] ignores them
    all and the status is 400, also when every one lies in [200,520];
    with two or more overrides [HandleError] ignores them all: it answers
    as with no override, and its default of 500 is the status of the
    response to an unclassified error. *)
Theorem variadic_status_ignored msg cause (s1 s2 : Z) (rest : list Z) :
  HttpError_Status (NewHttpError msg cause (s1 :: s2 :: rest)) = 400 ∧
  (∀ w r err,
     HandleError json_text w r err (s1 :: s2 :: rest) =
     HandleError json_text w r err []) ∧
  (∀ w r err,
     errors_As err = None → w_status w = None →
     w_status (HandleError json_text w r err (s1 :: s2 :: rest)) = Some 500).
Proof.
  split; [reflexivity|]. split.
  - intros w r err. reflexivity.
  - intros w r err Has Hfresh.
    rewrite (HandleError_None w r err _ Has), (respond_fresh _ _ _ Hfresh).
    reflexivity.
Qed.

End Responses.

(** ** Query-parameter coercion *)

Section Coercion.

Variable strconv_Quote : string -> string.

Lemma setValue_Name f v : Name (setValue f v) = Name f.
Proof. reflexivity. Qed.

Lemma setValue_same f : setValue f (Value f) = f.
Proof. destruct f; reflexivity. Qed.

(** A turn of the loop that goes through. *)
Lemma bindField_inr params f f' :
  bindField strconv_Quote params f = inr f' →
  Name f' = Name f ∧ Tag_query f' = Tag_query f ∧
  (∀ v vs, Tag_query f ≠ "" → params !! Tag_query f = Some (v :: vs) →
     (∀ s, Value f = VString s → Value f' = VString v) ∧
     (∀ n, Value f = VInt n → ∃ m, Atoi v = inr m ∧ Value f' = VInt m) ∧
     (∀ b, Value f = VBool b → f' = f)) ∧
  (Tag_query f = "" ∨ params !! Tag_query f = None
     ∨ params !! Tag_query f = Some [] → f' = f).
Proof.
  unfold bindField. intros Hb.
  destruct (String.eqb_spec (Tag_query f) "") as [Htag|Htag]; simpl in Hb.
  { injection Hb as <-. naive_solver. }
  destruct (params !! Tag_query f) as [[|v vs]|] eqn:Hp.
  - injection Hb as <-. naive_solver.
  - destruct (Value f) as [s|n|b] eqn:Hv.
    + injection Hb as <-. simpl. naive_solver.
    + destruct (Atoi v) as [e|m] eqn:Ha; [done|]. injection Hb as <-.
      simpl. naive_solver.
    + injection Hb as <-. naive_solver.
  - injection Hb as <-. naive_solver.
Qed.

(** A turn of the loop that returns the error. *)
Lemma bindField_inl params f e :
  bindField strconv_Quote params f = inl e →
  ∃ v vs n ne,
    Tag_query f ≠ "" ∧ params !! Tag_query f = Some (v :: vs) ∧
    Value f = VInt n ∧ Atoi v = inl ne ∧
    e = errorString
          ("failed to convert parameter " +:+ Tag_query f +:+ " to int: " +:+
           NumError_Error strconv_Quote v ne).
Proof.
  unfold bindField. intros Hb.
  destruct (String.eqb_spec (Tag_query f) "") as [Htag|Htag]; simpl in Hb;
    [done|].
  destruct (params !! Tag_query f) as [[|v vs]|] eqn:Hp; try done.
  destruct (Value f) as [s|n|b] eqn:Hv; try done.
  destruct (Atoi v) as [ne|m] eqn:Ha; [|done].
  injection Hb as <-. exists v, vs, n, ne. done.
Qed.

(** The loop: the fields before position [k] went through their turn, the
    fields from [k] on are as they were, and an error comes from the turn
    of the field at [k]. *)
Lemma bindFields_split params fields fields' err :
  bindFields strconv_Quote params fields = (fields', err) →
  ∃ k : nat,
    (k ≤ length fields)%nat ∧
    length fields' = length fields ∧
    (∀ i f, (i < k)%nat → fields !! i = Some f →
       ∃ f', fields' !! i = Some f' ∧
             bindField strconv_Quote params f = inr f') ∧
    (∀ i, (k ≤ i)%nat → fields' !! i = fields !! i) ∧
    (err = None → k = length fields) ∧
    (∀ e, err = Some e →
       ∃ f, fields !! k = Some f ∧
            bindField strconv_Quote params f = inl e).
Proof.
  revert fields' err.
  induction fields as [|f rest IH]; intros fields' err Hb; simpl in Hb.
  - injection Hb as <- <-. exists 0%nat.
    repeat split; try done; intros; lia.
  - destruct (bindField strconv_Quote params f) as [e|f'] eqn:Hf.
    + injection Hb as <- <-. exists 0%nat. simpl.
      split; [lia|]. split; [done|]. split; [intros i g Hi; lia|].
      split; [done|]. split; [done|].
      intros e' [= <-]. exists f. done.
    + destruct (bindFields strconv_Quote params rest) as [rest' err'] eqn:Hr.
      injection Hb as <- <-.
      destruct (IH rest' err' eq_refl) as (k & Hk & Hlen & Hlt & Hge & Hnone & Hsome).
      exists (S k). simpl.
      split; [lia|]. split; [lia|]. split; [|split; [|split]].
      * intros [|i] g Hi Hg; simpl in *.
        -- injection Hg as <-. exists f'. done.
        -- apply Hlt; [lia|done].
      * intros [|i] Hi; [lia|]. simpl. apply Hge. lia.
      * intros Herr. rewrite (Hnone Herr). done.
      * intros e Herr. apply Hsome. done.
Qed.


End Coercion.

Example BindQueryParams_sample :
  BindQueryParams sample_Quote sampleContext sampleTarget sampleParams =
  ([ {| Name := "Name"; Tag_query := "name"; Value := VString "Bob" |};
     {| Name := "Age"; Tag_query := "age"; Value := VInt 42 |};
     {| Name := "Admin"; Tag_query := "admin"; Value := VBool false |} ],
   None).
Proof. vm_compute. reflexivity. Qed.

Example BindQueryParams_sample_error :
  BindQueryParams sample_Quote sampleContext sampleTarget sampleBadParams =
  (sampleHalfBound, Some sampleConversionError).
Proof. vm_compute. reflexivity. Qed.


(** ** The error path on concrete errors *)

Example HandleError_plain_error :
  HandleError sample_text newWriter sampleRequest
    (Some (errorString "boom")) [] =
  {| w_header := <["Content-Type" := ["application/json;charset=utf-8"]]> ∅;
     w_status := Some 500;
     w_body := "<json>" +:+ newline |}.
Proof. reflexivity. Qed.

(** C1 as the spec states it fails: with one override, here 404, the
    response to an unclassified error has the override as its status, not
    500. *)
Lemma HandleError_override_counterexample :
  errors_As (Some (errorString "boom")) = None ∧
  w_status newWriter = None ∧
  w_status (HandleError sample_text newWriter sampleRequest
              (Some (errorString "boom")) [404]) = Some 404 ∧
  w_status (HandleError sample_text newWriter sampleRequest
              (Some (errorString "boom")) [404]) ≠ Some 500.
Proof. repeat split; try reflexivity. intros [=]. Qed.

Lemma HandleError_unclassified_witness :
  w_status (HandleError sample_text newWriter sampleRequest
              (Some (wrapError "outer: boom" (errorString "boom"))) [404; 409])
  = Some 500.
Proof.
  destruct (HandleError_unclassified sample_text newWriter sampleRequest
              (Some (wrapError "outer: boom" (errorString "boom"))) [404; 409]
              eq_refl eq_refl) as (_ & _ & Hstatus).
  exact Hstatus.
Defined.

Lemma HandleError_classified_witness :
  w_status (HandleError sample_text newWriter sampleRequest
              (Some (wrapError "lookup: not found"
                       (ptrHttpError
                          (NewHttpError "not found" None [404])))) [503])
  = Some 404.
Proof.
  destruct (HandleError_classified sample_text newWriter sampleRequest
              (Some (wrapError "lookup: not found"
                       (ptrHttpError (NewHttpError "not found" None [404]))))
              [503] None "not found" 404 eq_refl eq_refl) as (Hstatus & _).
  exact Hstatus.
Defined.

Lemma variadic_status_ignored_witness :
  HttpError_Status (NewHttpError "x" None [404; 409]) = 400 ∧
  w_status (HandleError sample_text newWriter sampleRequest
              (Some (errorString "boom")) [404; 409]) = Some 500.
Proof.
  destruct (variadic_status_ignored sample_text "x" None 404 409 [])
    as (Hnew & _ & Hdefault).
  split; [exact Hnew|].
  apply Hdefault; reflexivity.
Defined.

(** ** Decoding a JSON object into the target *)

Section Decoding.

Variable equalFold : string -> string -> bool.

Lemma indexWhere_Some {A : Type} (p : A -> bool) (l : list A) (i : nat) :
  indexWhere p l = Some i → ∃ x, l !! i = Some x ∧ p x = true.
Proof.
  revert i. induction l as [|x l IH]; intros i Hi; simpl in Hi; [done|].
  destruct (p x) eqn:Hp.
  - injection Hi as <-. exists x. done.
  - destruct (indexWhere p l) as [j|]; [|done].
    injection Hi as <-. apply (IH j eq_refl).
Qed.

Lemma fieldByKey_Some key (t : target) i :
  fieldByKey equalFold key t = Some i →
  ∃ f, t !! i = Some f ∧
       (String.eqb (Name f) key || equalFold (Name f) key) = true.
Proof.
  unfold fieldByKey. intros Hi.
  destruct (indexWhere (λ f, String.eqb (Name f) key) t) as [j|] eqn:Hexact.
  - injection Hi as <-.
    destruct (indexWhere_Some _ _ _ Hexact) as (f & Hf & Hp).
    exists f. simpl in Hp. rewrite Hp. done.
  - destruct (indexWhere_Some _ _ _ Hi) as (f & Hf & Hp).
    exists f. simpl in Hp. rewrite Hp, orb_true_r. done.
Qed.

(** A field that no member of the object names keeps its value through
    the decoding of the object. *)
Lemma decodeMembers_frame members :
  ∀ (t t' : target) saved e,
    decodeMembers equalFold members t saved = (t', e) →
    ∀ i f, t !! i = Some f →
      existsb (λ kv, String.eqb (Name f) (fst kv) || equalFold (Name f) (fst kv))
        members = false →
      t' !! i = Some f.
Proof.
  induction members as [|[key j] rest IH]; intros t t' saved e Hd i f Hf Hno;
    simpl in Hd.
  - injection Hd as <- _. done.
  - simpl in Hno. apply orb_false_elim in Hno as [Hkey Hrest].
    destruct (fieldByKey equalFold key t) as [n|] eqn:Hfind;
      [|by apply (IH _ _ _ _ Hd)].
    destruct (fieldByKey_Some _ _ _ Hfind) as (g & Hg & Hmatch).
    rewrite Hg in Hd.
    destruct (storeValue (Value g) j) as [v|];
      [|by apply (IH _ _ _ _ Hd)].
    apply (IH _ _ _ _ Hd); [|done].
    destruct (decide (n = i)) as [->|Hne].
    + rewrite Hf in Hg. injection Hg as <-. congruence.
    + rewrite list_lookup_insert_ne; done.
Qed.

Lemma unmarshalStruct_frame doc (t t' : target) e :
  unmarshalStruct equalFold doc t = (t', e) →
  ∀ i f, t !! i = Some f → mentions equalFold doc (Name f) = false → t' !! i = Some f.
Proof.
  intros Hu i f Hf Hno. destruct doc; simpl in Hu;
    try (injection Hu as <- _; done).
  apply (decodeMembers_frame _ _ _ _ _ Hu i f Hf Hno).
Qed.

End Decoding.

(** ** The binder *)

Section Binding.

Variable strconv_Quote : string -> string.
Variable json_scan : string -> string + json.
Variable equalFold : string -> string -> bool.
Variable UnmarshalTypeError_Error : UnmarshalTypeError -> string.

(** The two steps of [BindWithoutValidation]: the result of the query
    step when it fails, otherwise the result of the body step, which runs
    [BindJSONBody] on the coerced target under the JSON content type and
    does nothing under any other. *)
Lemma BindWithoutValidation_steps c data :
  BindWithoutValidation strconv_Quote json_scan equalFold UnmarshalTypeError_Error
    c data =
  match BindQueryParams strconv_Quote c data (URL_Query (request c)) with
  | (dq, Some e) => (dq, Some e)
  | (dq, None) =>
      if String.eqb (Header_Get (Header (request c)) "Content-Type")
           "application/json"
      then BindJSONBody json_scan equalFold UnmarshalTypeError_Error c dq
             (Body (request c))
      else (dq, None)
  end.
Proof.
  unfold BindWithoutValidation.
  destruct (BindQueryParams _ c data _) as [dq [e|]]; [reflexivity|].
  destruct (String.eqb _ _); [|reflexivity].
  destruct (BindJSONBody _ _ _ c dq _) as [db [e|]]; reflexivity.
Qed.

Lemma Bind_of_failure validator_Struct c data data' e :
  BindWithoutValidation strconv_Quote json_scan equalFold UnmarshalTypeError_Error
    c data = (data', Some e) →
  Bind strconv_Quote json_scan equalFold UnmarshalTypeError_Error validator_Struct
    c data =
  (data', Some (mkHttpError (Some e) "failed to read inputs" 400)).
Proof. intros Hb. unfold Bind. rewrite Hb. reflexivity. Qed.

(** C2: when query coercion fails, or it succeeds and the decoding of the
    JSON body fails, with the error [e], [BindWithoutValidation] returns
    [e] itself and [Bind] returns an [HttpError] with status 400, the
    message "failed to read inputs" and the cause [e]; the result of
    [Bind] is the same for every validator, which is not run. *)
Theorem Bind_failed_inputs c data :
  (∀ dq e,
     BindQueryParams strconv_Quote c data (URL_Query (request c))
       = (dq, Some e) →
     BindWithoutValidation strconv_Quote json_scan equalFold UnmarshalTypeError_Error
       c data = (dq, Some e) ∧
     ∀ validator_Struct,
       Bind strconv_Quote json_scan equalFold UnmarshalTypeError_Error validator_Struct
         c data =
       (dq, Some (mkHttpError (Some e) "failed to read inputs" 400))) ∧
  (∀ dq db e,
     BindQueryParams strconv_Quote c data (URL_Query (request c))
       = (dq, None) →
     Header_Get (Header (request c)) "Content-Type" = "application/json" →
     BindJSONBody json_scan equalFold UnmarshalTypeError_Error c dq (Body (request c))
       = (db, Some e) →
     BindWithoutValidation strconv_Quote json_scan equalFold UnmarshalTypeError_Error
       c data = (db, Some e) ∧
     ∀ validator_Struct,
       Bind strconv_Quote json_scan equalFold UnmarshalTypeError_Error validator_Struct
         c data =
       (db, Some (mkHttpError (Some e) "failed to read inputs" 400))).
Proof.
  split.
  - intros dq e Hq.
    assert (BindWithoutValidation strconv_Quote json_scan equalFold
              UnmarshalTypeError_Error c data = (dq, Some e)) as Hb.
    { rewrite BindWithoutValidation_steps, Hq. reflexivity. }
    split; [exact Hb|]. intros v. apply Bind_of_failure, Hb.
  - intros dq db e Hq Hct Hj.
    assert (BindWithoutValidation strconv_Quote json_scan equalFold
              UnmarshalTypeError_Error c data = (db, Some e)) as Hb.
    { rewrite BindWithoutValidation_steps, Hq, Hct. simpl. exact Hj. }
    split; [exact Hb|]. intros v. apply Bind_of_failure, Hb.
Qed.

(** C4, as amended: when binding succeeds and the validator reports
    errors, [Bind] returns an [HttpError] with status 400 and no cause,
    whose message is "validation error(s): " followed by the diagnostics
    "validation failed for <field>", one per reported error, joined with
    ", ". *)
Theorem Bind_validation_failure validator_Struct c data data' fe fes :
  BindWithoutValidation strconv_Quote json_scan equalFold UnmarshalTypeError_Error
    c data = (data', None) →
  validator_Struct data' = fe :: fes →
  Bind strconv_Quote json_scan equalFold UnmarshalTypeError_Error validator_Struct
    c data =
  (data',
   Some (mkHttpError None
           ("validation error(s): " +:+
            strings_Join
              (map (λ f, "validation failed for " +:+ f) (fe :: fes)) ", ")
           400)).
Proof.
  intros Hb Hv. unfold Bind. rewrite Hb, Hv. reflexivity.
Qed.

(** C6: the JSON body decoder is run under the test that the
    Content-Type header is the literal [application/json], in the body
    step that follows a successful query step, and nowhere else.  Under
    any other Content-Type the body step does nothing: the result of
    [BindWithoutValidation] is the result of the query step, with no
    error added, the target as coercion left it, and the body and the
    decoder not consulted.  Under [application/json] the body step is
    [BindJSONBody] on the coerced target. *)
Theorem content_type_dispatch c data :
  BindWithoutValidation strconv_Quote json_scan equalFold UnmarshalTypeError_Error
    c data =
  match BindQueryParams strconv_Quote c data (URL_Query (request c)) with
  | (dq, Some e) => (dq, Some e)
  | (dq, None) =>
      if String.eqb (Header_Get (Header (request c)) "Content-Type")
           "application/json"
      then BindJSONBody json_scan equalFold UnmarshalTypeError_Error c dq
             (Body (request c))
      else (dq, None)
  end ∧
  (Header_Get (Header (request c)) "Content-Type" ≠ "application/json" →
   BindWithoutValidation strconv_Quote json_scan equalFold UnmarshalTypeError_Error
     c data =
   BindQueryParams strconv_Quote c data (URL_Query (request c))) ∧
  (Header_Get (Header (request c)) "Content-Type" = "application/json" →
   ∀ dq,
     BindQueryParams strconv_Quote c data (URL_Query (request c))
       = (dq, None) →
     BindWithoutValidation strconv_Quote json_scan equalFold UnmarshalTypeError_Error
       c data =
     BindJSONBody json_scan equalFold UnmarshalTypeError_Error c dq (Body (request c))).
Proof.
  split; [apply BindWithoutValidation_steps|]. split.
  - intros Hct. rewrite BindWithoutValidation_steps.
    destruct (BindQueryParams _ c data _) as [dq [e|]]; [reflexivity|].
    destruct (String.eqb_spec
                (Header_Get (Header (request c)) "Content-Type")
                "application/json"); [contradiction|reflexivity].
  - intros Hct dq Hq.
    rewrite BindWithoutValidation_steps, Hq, Hct. reflexivity.
Qed.

(** C9: in a binding run that succeeds, query coercion has run first and
    the body step works on the target it produced; a field that the JSON
    document of the body does not mention has after the bind the value
    coercion left it with, and under another Content-Type the whole
    target is as coercion left it. *)
Theorem body_decoding_frame c data data' :
  BindWithoutValidation strconv_Quote json_scan equalFold UnmarshalTypeError_Error
    c data = (data', None) →
  ∃ dq,
    BindQueryParams strconv_Quote c data (URL_Query (request c))
      = (dq, None) ∧
    (Header_Get (Header (request c)) "Content-Type" = "application/json" →
     BindJSONBody json_scan equalFold UnmarshalTypeError_Error c dq (Body (request c))
       = (data', None) ∧
     ∃ doc,
       json_scan (Body (request c)) = inr doc ∧
       ∀ i f, dq !! i = Some f → mentions equalFold doc (Name f) = false →
              data' !! i = Some f) ∧
    (Header_Get (Header (request c)) "Content-Type" ≠ "application/json" →
     data' = dq).
Proof.
  rewrite BindWithoutValidation_steps.
  destruct (BindQueryParams _ c data _) as [dq [e|]]; [done|].
  intros Hb. exists dq. split; [done|].
  destruct (String.eqb_spec
              (Header_Get (Header (request c)) "Content-Type")
              "application/json") as [Hct|Hct].
  - split; [|done]. intros _. split; [done|].
    unfold BindJSONBody, Decoder_Decode in Hb.
    destruct (json_scan (Body (request c))) as [text|doc]; [done|].
    exists doc. split; [done|].
    destruct (unmarshalStruct equalFold doc dq) as [db ue] eqn:Hu.
    destruct ue as [ue|]; simpl in Hb; [done|].
    injection Hb as <-. intros i f Hf Hno.
    apply (unmarshalStruct_frame _ _ _ _ _ Hu i f Hf Hno).
  - injection Hb as <-. split; done.
Qed.

End Binding.

(** ** The success path and the round trip *)

Section RoundTrip.

Variable equalFold : string -> string -> bool.





End RoundTrip.

Section Success.

Variable json_text : json -> string.
Variable json_scan : string -> string + json.
Variable equalFold : string -> string -> bool.
Variable UnmarshalTypeError_Error : UnmarshalTypeError -> string.

Lemma JSON_writer c code data :
  writer (JSON json_text c code data) =
  Encoder_Encode json_text (marshalStruct data)
    (WriteHeader (if code =? 0 then http_StatusOK else code)
       (w_Header_Set "Content-Type" "application/json;charset=utf-8"
          (writer c))).
Proof. reflexivity. Qed.


End Success.

(** ** The binder on concrete requests *)

Example Bind_sample :
  Bind sample_Quote sample_scan sample_equalFold sample_typeError sample_validator
    sampleJSONContext sampleTarget = (sampleDecoded, None).
Proof. vm_compute. reflexivity. Qed.

Example BindWithoutValidation_form :
  BindWithoutValidation sample_Quote sample_scan sample_equalFold sample_typeError
    sampleFormContext sampleTarget = (sampleBound, None).
Proof. vm_compute. reflexivity. Qed.

Lemma Bind_failed_inputs_witness :
  BindWithoutValidation sample_Quote sample_scan sample_equalFold sample_typeError
    sampleBadContext sampleTarget
    = (sampleHalfBound, Some sampleConversionError) ∧
  Bind sample_Quote sample_scan sample_equalFold sample_typeError failing_validator
    sampleBadContext sampleTarget
    = (sampleHalfBound,
       Some (mkHttpError (Some sampleConversionError)
               "failed to read inputs" 400)).
Proof.
  assert (BindQueryParams sample_Quote sampleBadContext sampleTarget
            (URL_Query (request sampleBadContext))
          = (sampleHalfBound, Some sampleConversionError))
    as Hq by (vm_compute; reflexivity).
  destruct (Bind_failed_inputs sample_Quote sample_scan sample_equalFold sample_typeError
              sampleBadContext sampleTarget) as (Hquery & _).
  destruct (Hquery sampleHalfBound sampleConversionError Hq) as (Hb & Hbind).
  split; [exact Hb | exact (Hbind failing_validator)].
Defined.

(** C4 as the spec states it fails: the message of the [HttpError] is not
    the joined diagnostics, it has the prefix "validation error(s): ". *)
Lemma Bind_validation_message_counterexample :
  BindWithoutValidation sample_Quote sample_scan sample_equalFold sample_typeError
    sampleJSONContext sampleTarget = (sampleDecoded, None) ∧
  failing_validator sampleDecoded = ["Name"; "Age"] ∧
  HttpError_Error <$>
    snd (Bind sample_Quote sample_scan sample_equalFold sample_typeError failing_validator
           sampleJSONContext sampleTarget)
  = Some ("validation error(s): " +:+
          "validation failed for Name, validation failed for Age") ∧
  HttpError_Error <$>
    snd (Bind sample_Quote sample_scan sample_equalFold sample_typeError failing_validator
           sampleJSONContext sampleTarget)
  ≠ Some "validation failed for Name, validation failed for Age".
Proof.
  split; [vm_compute; reflexivity|]. split; [reflexivity|].
  split; [vm_compute; reflexivity|]. vm_compute. intros [=].
Qed.

Lemma Bind_validation_failure_witness :
  Bind sample_Quote sample_scan sample_equalFold sample_typeError failing_validator
    sampleJSONContext sampleTarget
  = (sampleDecoded,
     Some (mkHttpError None
             ("validation error(s): " +:+
              "validation failed for Name, validation failed for Age")
             400)).
Proof.
  assert (BindWithoutValidation sample_Quote sample_scan sample_equalFold sample_typeError
            sampleJSONContext sampleTarget = (sampleDecoded, None))
    as Hb by (vm_compute; reflexivity).
  exact (Bind_validation_failure sample_Quote sample_scan sample_equalFold sample_typeError
           failing_validator sampleJSONContext sampleTarget sampleDecoded
           "Name" ["Age"] Hb eq_refl).
Defined.

Lemma content_type_dispatch_witness :
  BindWithoutValidation sample_Quote sample_scan sample_equalFold sample_typeError
    sampleFormContext sampleTarget
  = BindQueryParams sample_Quote sampleFormContext sampleTarget sampleParams ∧
  BindWithoutValidation sample_Quote sample_scan sample_equalFold sample_typeError
    sampleJSONContext sampleTarget
  = BindJSONBody sample_scan sample_equalFold sample_typeError sampleJSONContext sampleBound
      sampleBodyText.
Proof.
  destruct (content_type_dispatch sample_Quote sample_scan sample_equalFold sample_typeError
              sampleFormContext sampleTarget) as (_ & Hother & _).
  destruct (content_type_dispatch sample_Quote sample_scan sample_equalFold sample_typeError
              sampleJSONContext sampleTarget) as (_ & _ & Hjson).
  split.
  - apply Hother. vm_compute. intros [=].
  - apply (Hjson eq_refl sampleBound). vm_compute. reflexivity.
Defined.

Lemma body_decoding_frame_witness :
  ∃ dq : target,
    BindQueryParams sample_Quote sampleJSONContext sampleTarget sampleParams
      = (dq, None) ∧
    ∃ doc,
      sample_scan sampleBodyText = inr doc ∧
      ∀ i f, dq !! i = Some f → mentions sample_equalFold doc (Name f) = false →
             sampleDecoded !! i = Some f.
Proof.
  assert (BindWithoutValidation sample_Quote sample_scan sample_equalFold sample_typeError
            sampleJSONContext sampleTarget = (sampleDecoded, None))
    as Hb by (vm_compute; reflexivity).
  destruct (body_decoding_frame sample_Quote sample_scan sample_equalFold sample_typeError
              sampleJSONContext sampleTarget sampleDecoded Hb)
    as (dq & Hq & Hjson & _).
  destruct (Hjson eq_refl) as (_ & doc & Hdoc & Hframe).
  exists dq. split; [exact Hq|]. exists doc. split; [exact Hdoc | exact Hframe].
Defined.

Example JSON_sample :
  writer (JSON sample_text sampleContext 0 sampleBound) =
  {| w_header := <["Content-Type" := ["application/json;charset=utf-8"]]> ∅;
     w_status := Some 200;
     w_body := "<json>" +:+ newline |}.
Proof. reflexivity. Qed.


(** * Further properties of the package *)

(** ** The error model *)

(** X1: whatever status arguments [NewHttpError] receives, the status of
    the error it builds lies in [200,520]. *)
Theorem NewHttpError_status_range msg cause (statsuCode : list Z) :
  200 <= HttpError_Status (NewHttpError msg cause statsuCode) <= 520.
Proof.
  destruct statsuCode as [|s [|s' rest]].
  - simpl. unfold http_StatusBadRequest. lia.
  - rewrite NewHttpError_one. unfold http_StatusBadRequest.
    destruct (Z.leb_spec 200 s), (Z.leb_spec s 520); simpl; lia.
  - rewrite NewHttpError_many. simpl. unfold http_StatusBadRequest. lia.
Qed.

Section ErrorPath.

Variable json_text : json -> string.

(** X2: the response to a classified error is decided by the message and
    the status of the [HttpError] found on the chain alone: the wrapping
    around it, its cause and the overrides do not change the response, on
    any writer. *)
Theorem HandleError_classified_determined w r err ov cause msg statusCode :
  errors_As err = Some (mkHttpError cause msg statusCode) →
  HandleError json_text w r err ov =
  HandleError json_text w r
    (Some (ptrHttpError (mkHttpError None msg statusCode))) [].
Proof.
  intros Has.
  rewrite (HandleError_Some json_text w r err ov cause msg statusCode Has).
  rewrite (HandleError_Some json_text w r
             (Some (ptrHttpError (mkHttpError None msg statusCode))) []
             None msg statusCode eq_refl).
  reflexivity.
Qed.

(** X3: both response paths touch no header but Content-Type: every
    other header of the writer is after [HandleError] and after [JSON] as
    it was before, on any writer. *)
Theorem responses_keep_other_headers (key : string) :
  key ≠ "Content-Type" →
  (∀ w r err ov,
     w_header (HandleError json_text w r err ov) !! key = w_header w !! key) ∧
  (∀ c code data,
     w_header (writer (JSON json_text c code data)) !! key
       = w_header (writer c) !! key).
Proof.
  intros Hkey.
  assert (∀ doc st w,
            w_header (Encoder_Encode json_text doc
                        (WriteHeader st
                           (w_Header_Set "Content-Type"
                              "application/json;charset=utf-8" w))) !! key
            = w_header w !! key) as Hframe.
  { intros doc st w.
    unfold Encoder_Encode, Write, WriteHeader, w_Header_Set, Header_Set.
    simpl. destruct (w_status w); simpl;
      rewrite lookup_insert_ne by congruence; reflexivity. }
  split.
  - intros w r err ov. unfold HandleError.
    destruct (errors_As err) as [h|]; apply Hframe.
  - intros c code data. apply Hframe.
Qed.

(** X4: on a writer whose status line is written already, with status
    [s], both response paths leave the status at [s] and append their
    document to the body: an error returned after a response was written
    does not change the status the client got. *)
Theorem responses_keep_written_status w s :
  w_status w = Some s →
  (∀ r err ov,
     w_status (HandleError json_text w r err ov) = Some s ∧
     ∃ doc, w_body (HandleError json_text w r err ov)
              = w_body w +:+ json_text doc +:+ newline) ∧
  (∀ c code data,
     writer c = w →
     w_status (writer (JSON json_text c code data)) = Some s ∧
     w_body (writer (JSON json_text c code data))
       = w_body w +:+ json_text (marshalStruct data) +:+ newline).
Proof.
  intros Hs.
  assert (∀ doc st,
            Encoder_Encode json_text doc
              (WriteHeader st
                 (w_Header_Set "Content-Type"
                    "application/json;charset=utf-8" w))
            = {| w_header := <["Content-Type" :=
                                 ["application/json;charset=utf-8"]]>
                               (w_header w);
                 w_status := Some s;
                 w_body := w_body w +:+ json_text doc +:+ newline |})
    as Hkeep.
  { intros doc st.
    unfold Encoder_Encode, Write, WriteHeader, w_Header_Set. simpl.
    repeat (rewrite Hs; simpl). reflexivity. }
  split.
  - intros r err ov. unfold HandleError.
    destruct (errors_As err) as [h|]; rewrite Hkeep; simpl;
      (split; [reflexivity|eexists; reflexivity]).
  - intros c code data Hw. rewrite JSON_writer, Hw, Hkeep.
    simpl. split; reflexivity.
Qed.

End ErrorPath.

(** ** Query-parameter coercion, further *)

Lemma digitOf_Some c d : digitOf c = Some d → 0 <= d <= 9.
Proof.
  unfold digitOf. intros H.
  destruct (Z.leb_spec 48 (Z.of_N (N_of_ascii c))),
           (Z.leb_spec (Z.of_N (N_of_ascii c)) 57); simpl in H;
    try discriminate H.
  injection H as <-. lia.
Qed.

Lemma ParseUint_loop_inr s :
  ∀ acc n, 0 <= acc → ParseUint_loop s acc = inr n →
           allDigits s = true ∧ 0 <= n.
Proof.
  induction s as [|c s IH]; intros acc n Hacc Hp; simpl in *.
  - injection Hp as <-. done.
  - destruct (digitOf c) as [d|] eqn:Hd; [|discriminate Hp].
    apply digitOf_Some in Hd.
    destruct (maxUint64 / 10 + 1 <=? acc); [discriminate Hp|].
    destruct (maxUint64 <? acc * 10 + d); [discriminate Hp|].
    apply (IH (acc * 10 + d) n); [lia|exact Hp].
Qed.

Lemma ParseUint_inr s n :
  ParseUint s = inr n → s ≠ "" ∧ allDigits s = true ∧ 0 <= n.
Proof.
  destruct s as [|c s]; [discriminate|]. intros Hp.
  split; [discriminate|]. apply (ParseUint_loop_inr _ 0 n); [lia|exact Hp].
Qed.

(** What [Atoi] accepts is a numeral, and what it returns is a 64-bit
    integer. *)
Lemma Atoi_inr s n :
  Atoi s = inr n → isNumeral s = true ∧ minInt64 <= n <= maxInt64.
Proof.
  unfold Atoi, ParseInt, isNumeral, minInt64, maxInt64.
  change (2 ^ 63) with 9223372036854775808.
  destruct s as [|c s]; [discriminate|].
  set (ds := if Ascii.eqb c "+" || Ascii.eqb c "-" then s else String c s).
  intros Hp.
  destruct (ParseUint ds) as [[|]|un] eqn:Hu; try discriminate Hp.
  destruct (ParseUint_inr _ _ Hu) as (Hne & Hdig & Hpos).
  split.
  - apply String.eqb_neq in Hne. rewrite Hne, Hdig. reflexivity.
  - destruct (Ascii.eqb c "-"); simpl in Hp.
    + destruct (Z.ltb_spec 9223372036854775808 un); [discriminate Hp|].
      injection Hp as <-. lia.
    + destruct (Z.leb_spec 9223372036854775808 un); [discriminate Hp|].
      injection Hp as <-. lia.
Qed.

Section CoercionMore.

Variable strconv_Quote : string -> string.

Lemma bindField_again params f f' :
  bindField strconv_Quote params f = inr f' →
  bindField strconv_Quote params f' = inr f'.
Proof.
  unfold bindField. intros Hb.
  destruct (String.eqb_spec (Tag_query f) "") as [Htag|Htag]; simpl in Hb.
  { injection Hb as <-. rewrite Htag. reflexivity. }
  destruct (params !! Tag_query f) as [[|v vs]|] eqn:Hp.
  - injection Hb as <-. rewrite Hp.
    destruct (String.eqb (Tag_query f) ""); reflexivity.
  - destruct (Value f) as [s|n|b] eqn:Hv.
    + injection Hb as <-. simpl. rewrite Hp.
      destruct (String.eqb (Tag_query f) ""); reflexivity.
    + destruct (Atoi v) as [e|m] eqn:Ha; [discriminate Hb|].
      injection Hb as <-. simpl. rewrite Hp, Ha.
      destruct (String.eqb (Tag_query f) ""); reflexivity.
    + injection Hb as <-. rewrite Hp, Hv.
      destruct (String.eqb (Tag_query f) ""); reflexivity.
  - injection Hb as <-. rewrite Hp.
    destruct (String.eqb (Tag_query f) ""); reflexivity.
Qed.

Lemma bindFields_again params fields :
  ∀ fields' err,
    bindFields strconv_Quote params fields = (fields', err) →
    bindFields strconv_Quote params fields' = (fields', err).
Proof.
  induction fields as [|f rest IH]; intros fields' err Hb; simpl in Hb.
  - injection Hb as <- <-. reflexivity.
  - destruct (bindField strconv_Quote params f) as [e|f'] eqn:Hf.
    + injection Hb as <- <-. simpl. rewrite Hf. reflexivity.
    + destruct (bindFields strconv_Quote params rest) as [rest' err'] eqn:Hr.
      injection Hb as <- <-. simpl.
      rewrite (bindField_again _ _ _ Hf), (IH _ _ eq_refl). reflexivity.
Qed.

(** X5: query coercion is idempotent: running [BindQueryParams] again
    on the target it left, with the same parameters, gives the same
    target and the same error, also when the first run stopped at a
    conversion error. *)
Theorem BindQueryParams_idempotent c data params :
  BindQueryParams strconv_Quote c
    (fst (BindQueryParams strconv_Quote c data params)) params =
  BindQueryParams strconv_Quote c data params.
Proof.
  unfold BindQueryParams.
  destruct (bindFields strconv_Quote params data) as [data' err] eqn:Hb.
  simpl. apply (bindFields_again _ _ _ _ Hb).
Qed.

Lemma bindField_first_value (p1 p2 : gmap string (list string)) f :
  (p1 !! Tag_query f ≫= head) = (p2 !! Tag_query f ≫= head) →
  bindField strconv_Quote p1 f = bindField strconv_Quote p2 f.
Proof.
  unfold bindField. intros Hh.
  destruct (negb (String.eqb (Tag_query f) "")); [|reflexivity].
  destruct (p1 !! Tag_query f) as [[|v1 vs1]|],
           (p2 !! Tag_query f) as [[|v2 vs2]|]; simpl in Hh;
    try discriminate Hh; try reflexivity.
  injection Hh as <-. reflexivity.
Qed.

(** X6: [BindQueryParams] reads the first value of a parameter and
    nothing else: two parameter maps that give every key the same first
    value, a key with an empty list counting as absent, give the same
    target and the same error. *)
Theorem BindQueryParams_first_value c data
    (p1 p2 : gmap string (list string)) :
  (∀ key, (p1 !! key ≫= head) = (p2 !! key ≫= head)) →
  BindQueryParams strconv_Quote c data p1 =
  BindQueryParams strconv_Quote c data p2.
Proof.
  intros Hh. unfold BindQueryParams.
  induction data as [|f rest IH]; simpl; [reflexivity|].
  rewrite (bindField_first_value p1 p2 f (Hh _)), IH. reflexivity.
Qed.

(** X7: when no field of the target has a query tag whose parameter is
    present with a value, [BindQueryParams] returns no error and leaves
    the target as it was; so it does for a request without query
    parameters, whatever the target. *)
Theorem BindQueryParams_nothing_to_bind c data
    (params : gmap string (list string)) :
  (∀ f, f ∈ data →
        Tag_query f = "" ∨ params !! Tag_query f = None
        ∨ params !! Tag_query f = Some []) →
  BindQueryParams strconv_Quote c data params = (data, None) ∧
  BindQueryParams strconv_Quote c data ∅ = (data, None).
Proof.
  assert (∀ (p : gmap string (list string)) (d : target),
            (∀ f, f ∈ d →
                  Tag_query f = "" ∨ p !! Tag_query f = None
                  ∨ p !! Tag_query f = Some []) →
            bindFields strconv_Quote p d = (d, None)) as Hgen.
  { intros p d. induction d as [|f rest IH]; intros Habs; simpl;
      [reflexivity|].
    assert (bindField strconv_Quote p f = inr f) as ->.
    { unfold bindField.
      destruct (String.eqb_spec (Tag_query f) ""); [reflexivity|]. simpl.
      destruct (Habs f) as [Ht|[Hp|Hp]]; [left|contradiction| |];
        rewrite Hp; reflexivity. }
    rewrite IH; [reflexivity|]. intros g Hg. apply Habs. right. exact Hg. }
  intros Habs. unfold BindQueryParams. split; [apply Hgen, Habs|].
  apply Hgen. intros f _. right. left. apply lookup_empty.
Qed.

(** X8: after a [BindQueryParams] that returned no error, an int field
    whose parameter is present holds the value [Atoi] gives the first
    value; that value is a 64-bit integer and the text it came from is
    an optional sign followed by one or more decimal digits. *)
Theorem BindQueryParams_int_fields c data params data' :
  BindQueryParams strconv_Quote c data params = (data', None) →
  ∀ i f n v vs,
    data !! i = Some f → Value f = VInt n →
    Tag_query f ≠ "" → params !! Tag_query f = Some (v :: vs) →
    ∃ f' m,
      data' !! i = Some f' ∧ Value f' = VInt m ∧ Atoi v = inr m ∧
      isNumeral v = true ∧ minInt64 <= m <= maxInt64.
Proof.
  unfold BindQueryParams. intros Hb i f n v vs Hf Hv Htag Hp.
  destruct (bindFields_split _ _ _ _ _ Hb)
    as (k & _ & _ & Hlt & _ & Hnone & _).
  rewrite (Hnone eq_refl) in Hlt.
  destruct (Hlt i f (lookup_lt_Some _ _ _ Hf) Hf) as (f' & Hf' & Hbf).
  destruct (bindField_inr _ _ _ _ Hbf) as (_ & _ & Hpresent & _).
  destruct (Hpresent v vs Htag Hp) as (_ & Hint & _).
  destruct (Hint n Hv) as (m & Ha & Hm).
  exists f', m. destruct (Atoi_inr _ _ Ha) as (Hnum & Hrange). done.
Qed.

End CoercionMore.

(** ** The binder, further *)

Lemma string_app_nil_r (s : string) : s +:+ "" = s.
Proof.
  induction s as [|a s IH]; [reflexivity|].
  change (String a s +:+ "") with (String a (s +:+ "")).
  rewrite IH. reflexivity.
Qed.

Lemma string_app_assoc (s t u : string) : (s +:+ t) +:+ u = s +:+ t +:+ u.
Proof.
  induction s as [|a s IH]; [reflexivity|].
  change ((String a s +:+ t) +:+ u) with (String a ((s +:+ t) +:+ u)).
  rewrite IH. reflexivity.
Qed.

Lemma strings_Join_contains (l : list string) (sep x : string) :
  x ∈ l → ∃ pre post, strings_Join l sep = pre +:+ x +:+ post.
Proof.
  induction l as [|y l IH]; intros Hx.
  - exfalso. exact (not_elem_of_nil _ Hx).
  - apply elem_of_cons in Hx as [->|Hx].
    + destruct l as [|z l].
      * exists "", "". simpl. rewrite string_app_nil_r. reflexivity.
      * exists "", (sep +:+ strings_Join (z :: l) sep). reflexivity.
    + destruct (IH Hx) as (pre & post & Hj).
      destruct l as [|z l]; [exfalso; exact (not_elem_of_nil _ Hx)|].
      exists (y +:+ sep +:+ pre), post.
      change (strings_Join (y :: z :: l) sep)
        with (y +:+ sep +:+ strings_Join (z :: l) sep).
      rewrite Hj, !string_app_assoc. reflexivity.
Qed.

Lemma prefix_app (s x : string) : String.prefix s (s +:+ x) = true.
Proof.
  induction s as [|a s IH]; [destruct x; reflexivity|].
  change (String a s +:+ x) with (String a (s +:+ x)). simpl.
  destruct (ascii_dec a a); [exact IH|contradiction].
Qed.

Section BinderMore.

Variable strconv_Quote : string -> string.
Variable json_text : json -> string.
Variable json_scan : string -> string + json.
Variable equalFold : string -> string -> bool.
Variable UnmarshalTypeError_Error : UnmarshalTypeError -> string.

Lemma BindQueryParams_error c data params data' e :
  BindQueryParams strconv_Quote c data params = (data', Some e) →
  ∃ s, e = errorString s ∧
       String.prefix "failed to convert parameter " s = true.
Proof.
  unfold BindQueryParams. intros Hb.
  destruct (bindFields_split _ _ _ _ _ Hb) as (k & _ & _ & _ & _ & _ & Herr).
  destruct (Herr e eq_refl) as (f & _ & Hbf).
  destruct (bindField_inl _ _ _ _ Hbf) as (v & vs & n & ne & _ & _ & _ & _ & ->).
  eexists. split; [reflexivity|apply prefix_app].
Qed.

Lemma BindJSONBody_error c data body data' e :
  BindJSONBody json_scan equalFold UnmarshalTypeError_Error c data body
    = (data', Some e) →
  ∃ s, e = errorString s ∧
       String.prefix "failed to decode JSON body: " s = true.
Proof.
  unfold BindJSONBody. intros Hb.
  destruct (Decoder_Decode _ _ _ body data) as [d [text|]];
    [|discriminate Hb].
  injection Hb as _ <-. eexists. split; [reflexivity|apply prefix_app].
Qed.

(** X9: an error [BindWithoutValidation] returns is a plain error whose
    text begins with "failed to convert parameter " or with "failed to
    decode JSON body: "; it is not an [HttpError] and wraps none, so
    [HandleError] without override answers it with status 500 and the
    "Internal error" payload. *)
Theorem BindWithoutValidation_error_unclassified c data data' e :
  BindWithoutValidation strconv_Quote json_scan equalFold UnmarshalTypeError_Error
    c data = (data', Some e) →
  (∃ s, e = errorString s ∧
        (String.prefix "failed to convert parameter " s = true ∨
         String.prefix "failed to decode JSON body: " s = true)) ∧
  errors_As (Some e) = None ∧
  ∀ w r, w_status w = None →
    w_status (HandleError json_text w r (Some e) []) = Some 500 ∧
    w_body (HandleError json_text w r (Some e) []) =
      w_body w +:+
      json_text (JObject [("code", JInt 0);
                          ("message", JString "Internal error")]) +:+
      newline.
Proof.
  rewrite BindWithoutValidation_steps. intros Hb.
  assert (∃ s, e = errorString s ∧
               (String.prefix "failed to convert parameter " s = true ∨
                String.prefix "failed to decode JSON body: " s = true))
    as (s & -> & Hs).
  { destruct (BindQueryParams _ c data _) as [dq [eq|]] eqn:Hq.
    - injection Hb as _ <-.
      destruct (BindQueryParams_error _ _ _ _ _ Hq) as (s & -> & Hs).
      exists s. split; [reflexivity|left; exact Hs].
    - destruct (String.eqb _ _); [|discriminate Hb].
      destruct (BindJSONBody_error _ _ _ _ _ Hb) as (s & -> & Hs).
      exists s. split; [reflexivity|right; exact Hs]. }
  split; [exists s; split; [reflexivity|exact Hs]|].
  split; [reflexivity|].
  intros w r Hfresh.
  rewrite (HandleError_None json_text w r (Some (errorString s)) [] eq_refl),
          (respond_fresh _ _ _ _ Hfresh).
  split; reflexivity.
Qed.

(** X10: every error [Bind] returns has status 400.  Either binding
    failed, and the message is "failed to read inputs" and the cause the
    binding error, or binding succeeded and validation failed, and the
    message begins with "validation error(s): " and there is no cause.
    [HandleError] answers the error with status 400, whatever override is
    supplied. *)
Theorem Bind_error_is_bad_request validator_Struct c data data' h :
  Bind strconv_Quote json_scan equalFold UnmarshalTypeError_Error validator_Struct
    c data = (data', Some h) →
  HttpError_Status h = 400 ∧
  ((HttpError_Error h = "failed to read inputs" ∧
    ∃ e, HttpError_Cause h = Some e ∧
         BindWithoutValidation strconv_Quote json_scan equalFold
           UnmarshalTypeError_Error c data = (data', Some e)) ∨
   (String.prefix "validation error(s): " (HttpError_Error h) = true ∧
    HttpError_Cause h = None ∧
    BindWithoutValidation strconv_Quote json_scan equalFold
      UnmarshalTypeError_Error c data = (data', None) ∧
    validator_Struct data' ≠ [])) ∧
  ∀ w r ov, w_status w = None →
    w_status (HandleError json_text w r (Some (ptrHttpError h)) ov)
      = Some 400.
Proof.
  unfold Bind. intros Hb.
  destruct (BindWithoutValidation _ _ _ _ c data) as [d [e|]] eqn:Hbwv.
  - injection Hb as <- <-. split; [reflexivity|]. split.
    + left. split; [reflexivity|]. exists e. split; reflexivity.
    + intros w r ov Hfresh.
      erewrite HandleError_Some by reflexivity.
      rewrite (respond_fresh _ _ _ _ Hfresh). reflexivity.
  - destruct (validator_Struct d) as [|fe fes] eqn:Hv; [discriminate Hb|].
    injection Hb as <- <-. split; [reflexivity|]. split.
    + right. split; [apply prefix_app|]. split; [reflexivity|].
      split; [reflexivity|]. rewrite Hv. discriminate.
    + intros w r ov Hfresh.
      erewrite HandleError_Some by reflexivity.
      rewrite (respond_fresh _ _ _ _ Hfresh). reflexivity.
Qed.

(** X11: [Bind] returns no error exactly when binding returned none and
    the validator reports nothing on the bound target; the target [Bind]
    leaves is then the bound target. *)
Theorem Bind_success_iff validator_Struct c data data' :
  Bind strconv_Quote json_scan equalFold UnmarshalTypeError_Error validator_Struct
    c data = (data', None) ↔
  BindWithoutValidation strconv_Quote json_scan equalFold UnmarshalTypeError_Error
    c data = (data', None) ∧
  validator_Struct data' = [].
Proof.
  unfold Bind.
  destruct (BindWithoutValidation _ _ _ _ c data) as [d [e|]] eqn:Hbwv.
  - split; [discriminate|]. intros [Hb _]. discriminate Hb.
  - destruct (validator_Struct d) as [|fe fes] eqn:Hv.
    + split.
      * intros [= <-]. split; [reflexivity|exact Hv].
      * intros [[= <-] _]. reflexivity.
    + split; [discriminate|]. intros [[= <-] Hnil].
      rewrite Hv in Hnil. discriminate Hnil.
Qed.

(** X12: when validation fails, the message of the error of [Bind]
    contains the diagnostic "validation failed for <field>" of every
    error the validator reported. *)
Theorem Bind_message_names_every_field validator_Struct c data data' fe :
  BindWithoutValidation strconv_Quote json_scan equalFold UnmarshalTypeError_Error
    c data = (data', None) →
  fe ∈ validator_Struct data' →
  ∃ h pre post,
    Bind strconv_Quote json_scan equalFold UnmarshalTypeError_Error validator_Struct
      c data = (data', Some h) ∧
    HttpError_Error h = pre +:+ ("validation failed for " +:+ fe) +:+ post.
Proof.
  intros Hb Hfe. unfold Bind. rewrite Hb.
  destruct (validator_Struct data') as [|fe0 fes] eqn:Hv;
    [exfalso; exact (not_elem_of_nil _ Hfe)|].
  destruct (strings_Join_contains
              (map (λ e, "validation failed for " +:+ e) (fe0 :: fes)) ", "
              ("validation failed for " +:+ fe)) as (pre & post & Hj).
  { apply (list_elem_of_fmap_2 (λ e, "validation failed for " +:+ e)).
    exact Hfe. }
  exists (mkHttpError None
            ("validation error(s): " +:+
             strings_Join
               (map (λ e, "validation failed for " +:+ e) (fe0 :: fes)) ", ")
            400),
         ("validation error(s): " +:+ pre), post.
  split; [reflexivity|]. unfold HttpError_Error.
  rewrite Hj, string_app_assoc. reflexivity.
Qed.

End BinderMore.

(** ** The body after the query *)

Section DecodingShape.

Variable equalFold : string -> string -> bool.






End DecodingShape.

Section BodyAfterQuery.

Variable strconv_Quote : string -> string.
Variable json_scan : string -> string + json.
Variable equalFold : string -> string -> bool.
Variable UnmarshalTypeError_Error : UnmarshalTypeError -> string.


End BodyAfterQuery.

(** ** The handler adapter *)

Section Adapter.

Variable strconv_Quote : string -> string.
Variable json_text : json -> string.
Variable json_scan : string -> string + json.
Variable equalFold : string -> string -> bool.
Variable UnmarshalTypeError_Error : UnmarshalTypeError -> string.
Variable validator_Struct : target -> list string.

(** X14: [Handler] runs the function on a context with the writer and
    the request and no current user, and answers on its own writer, in
    the state the function left it.  When the function returns [nil] the
    adapter writes nothing.  When it returns an error and has written no
    status line on the adapter's writer, the response has status 500 and
    the "Internal error" payload for an error that is not and does not
    wrap an [HttpError], and the status and the message of the
    [HttpError] otherwise: the adapter passes no override.  When it
    returns a nil [*HttpError] as its error, the adapter panics and
    nothing more is written. *)
Theorem Handler_response (c : Context -> ResponseWriter * errorValue)
    w r w' ev :
  c {| CurrentUser := None; writer := w; request := r |} = (w', ev) →
  (ev = nilError → Handler json_text c w r = Returned w') ∧
  (∀ e, ev = anError e → errors_As (Some e) = None → w_status w' = None →
     ∃ response,
       Handler json_text c w r = Returned response ∧
       w_status response = Some 500 ∧
       w_body response =
         w_body w' +:+
         json_text (JObject [("code", JInt 0);
                             ("message", JString "Internal error")]) +:+
         newline) ∧
  (∀ e cause msg statusCode,
     ev = anError e →
     errors_As (Some e) = Some (mkHttpError cause msg statusCode) →
     w_status w' = None →
     ∃ response,
       Handler json_text c w r = Returned response ∧
       w_status response = Some statusCode ∧
       w_body response =
         w_body w' +:+
         json_text (JObject [("code", JInt 25600);
                             ("message", JString msg)]) +:+
         newline) ∧
  (ev = nilHttpError → Handler json_text c w r = Panicked w').
Proof.
  intros Hc. unfold Handler. rewrite Hc.
  split; [intros ->; reflexivity|]. split; [|split].
  - intros e -> Has Hfresh. eexists. split; [reflexivity|].
    rewrite (HandleError_None json_text w' r (Some e) [] Has),
            (respond_fresh _ _ _ _ Hfresh).
    split; reflexivity.
  - intros e cause msg statusCode -> Has Hfresh.
    eexists. split; [reflexivity|].
    rewrite (HandleError_Some json_text w' r (Some e) [] _ _ _ Has),
            (respond_fresh _ _ _ _ Hfresh).
    split; reflexivity.
  - intros ->. reflexivity.
Qed.

(** X15: the handler of the README, behind [Handler], on a writer with
    no status line: the adapter returns, and either [Bind] returned no
    error and the response has status 200 and the JSON text of the bound
    struct, or [Bind] returned an error and the response has status 400
    and the classified payload with the message of that error.  It never
    answers 500. *)
Theorem ExampleHandler_response w r :
  w_status w = None →
  let ctx := {| CurrentUser := None; writer := w; request := r |} in
  let outcome :=
    Handler json_text
      (throughContext
         (ExampleHandler strconv_Quote json_text json_scan equalFold
            UnmarshalTypeError_Error validator_Struct)) w r in
  (∃ data response,
     Bind strconv_Quote json_scan equalFold UnmarshalTypeError_Error
       validator_Struct ctx exampleData = (data, None) ∧
     outcome = Returned response ∧
     w_status response = Some 200 ∧
     w_body response = w_body w +:+ json_text (marshalStruct data) +:+ newline)
  ∨
  (∃ data h response,
     Bind strconv_Quote json_scan equalFold UnmarshalTypeError_Error
       validator_Struct ctx exampleData = (data, Some h) ∧
     HttpError_Status h = 400 ∧
     outcome = Returned response ∧
     w_status response = Some 400 ∧
     w_body response =
       w_body w +:+
       json_text (JObject [("code", JInt 25600);
                           ("message", JString (HttpError_Error h))]) +:+
       newline).
Proof.
  intros Hfresh ctx outcome. subst outcome.
  unfold Handler, throughContext, ExampleHandler. fold ctx.
  destruct (Bind strconv_Quote json_scan equalFold UnmarshalTypeError_Error
              validator_Struct ctx exampleData) as [data [h|]] eqn:Hb.
  - right. exists data, h. eexists. split; [reflexivity|].
    assert (HttpError_Status h = 400) as Hst.
    { unfold Bind in Hb.
      destruct (BindWithoutValidation _ _ _ _ ctx exampleData) as [d [e|]].
      - injection Hb as _ <-. reflexivity.
      - destruct (validator_Struct d); [discriminate Hb|].
        injection Hb as _ <-. reflexivity. }
    split; [exact Hst|]. split; [reflexivity|].
    destruct h as [cause msg st]. simpl in Hst. subst st.
    cbn [writer]. erewrite HandleError_Some by reflexivity.
    rewrite (respond_fresh _ _ _ _ Hfresh).
    split; reflexivity.
  - left. exists data. eexists. split; [reflexivity|].
    split; [reflexivity|].
    rewrite JSON_writer. subst ctx. cbn [writer].
    rewrite (respond_fresh _ _ _ _ Hfresh). split; reflexivity.
Qed.

End Adapter.

Section MalformedBody.

Variable strconv_Quote : string -> string.
Variable json_scan : string -> string + json.
Variable equalFold : string -> string -> bool.
Variable UnmarshalTypeError_Error : UnmarshalTypeError -> string.

(** X16: under the JSON content type, when the body cannot be read as a
    JSON value, [BindWithoutValidation] returns the error "failed to
    decode JSON body: " followed by the decoder's text, and the target
    keeps what query coercion gave it; [Bind] returns the 400 error with
    that error as its cause. *)
Theorem unreadable_body_keeps_query c data dq text :
  BindQueryParams strconv_Quote c data (URL_Query (request c))
    = (dq, None) →
  Header_Get (Header (request c)) "Content-Type" = "application/json" →
  json_scan (Body (request c)) = inl text →
  BindWithoutValidation strconv_Quote json_scan equalFold UnmarshalTypeError_Error
    c data =
  (dq, Some (errorString ("failed to decode JSON body: " +:+ text))) ∧
  ∀ validator_Struct,
    Bind strconv_Quote json_scan equalFold UnmarshalTypeError_Error validator_Struct
      c data =
    (dq,
     Some (mkHttpError
             (Some (errorString ("failed to decode JSON body: " +:+ text)))
             "failed to read inputs" 400)).
Proof.
  intros Hq Hct Hscan.
  assert (BindWithoutValidation strconv_Quote json_scan equalFold
            UnmarshalTypeError_Error c data =
          (dq, Some (errorString ("failed to decode JSON body: " +:+ text))))
    as Hb.
  { rewrite BindWithoutValidation_steps, Hq, Hct.
    change (String.eqb "application/json" "application/json") with true.
    cbv iota. unfold BindJSONBody, Decoder_Decode. rewrite Hscan.
    reflexivity. }
  split; [exact Hb|]. intros v. apply Bind_of_failure, Hb.
Qed.

End MalformedBody.

(** ** The further properties on concrete inputs *)

Lemma HandleError_classified_determined_witness :
  HandleError sample_text writtenWriter sampleRequest
    (Some (wrapError "lookup: not found"
             (ptrHttpError
                (mkHttpError (Some (errorString "no rows")) "not found" 404))))
    [503] =
  HandleError sample_text writtenWriter sampleRequest
    (Some (ptrHttpError (mkHttpError None "not found" 404))) [].
Proof.
  apply (HandleError_classified_determined sample_text writtenWriter
           sampleRequest
           (Some (wrapError "lookup: not found"
                    (ptrHttpError
                       (mkHttpError (Some (errorString "no rows"))
                          "not found" 404))))
           [503] (Some (errorString "no rows")) "not found" 404).
  reflexivity.
Defined.

Lemma responses_keep_other_headers_witness :
  w_header (HandleError sample_text writtenWriter sampleRequest
              (Some (errorString "boom")) []) !! "X-Request-Id"
  = w_header writtenWriter !! "X-Request-Id".
Proof.
  assert ("X-Request-Id" ≠ "Content-Type") as Hkey by discriminate.
  destruct (responses_keep_other_headers sample_text "X-Request-Id" Hkey)
    as (Herr & _).
  apply Herr.
Defined.

Lemma responses_keep_written_status_witness :
  w_status (HandleError sample_text writtenWriter sampleRequest
              (Some (errorString "boom")) []) = Some 200.
Proof.
  destruct (responses_keep_written_status sample_text writtenWriter 200
              eq_refl) as (Herr & _).
  destruct (Herr sampleRequest (Some (errorString "boom")) []) as (Hs & _).
  exact Hs.
Defined.

Lemma BindQueryParams_first_value_witness :
  BindQueryParams sample_Quote sampleContext sampleTarget sampleParams =
  BindQueryParams sample_Quote sampleContext sampleTarget sampleFirstParams.
Proof.
  apply BindQueryParams_first_value. intros key.
  unfold sampleParams, sampleFirstParams.
  destruct (decide (key = "name")) as [->|Hname].
  - rewrite !lookup_insert_eq. reflexivity.
  - rewrite !(lookup_insert_ne _ "name" key) by congruence.
    reflexivity.
Defined.

Lemma BindQueryParams_nothing_to_bind_witness :
  BindQueryParams sample_Quote sampleContext sampleBound ∅
  = (sampleBound, None).
Proof.
  apply (BindQueryParams_nothing_to_bind sample_Quote sampleContext
           sampleBound ∅).
  intros f _. right. left. apply lookup_empty.
Defined.

Lemma BindQueryParams_int_fields_witness :
  ∃ f' m, sampleBound !! 1%nat = Some f' ∧ Value f' = VInt m ∧
          Atoi "42" = inr m ∧ minInt64 <= m <= maxInt64.
Proof.
  assert (BindQueryParams sample_Quote sampleContext sampleTarget sampleParams
          = (sampleBound, None)) as Hb by (vm_compute; reflexivity).
  assert (sampleParams !! "age" = Some ["42"]) as Hp
    by (vm_compute; reflexivity).
  destruct (BindQueryParams_int_fields sample_Quote sampleContext sampleTarget
              sampleParams sampleBound Hb 1%nat
              {| Name := "Age"; Tag_query := "age"; Value := VInt 0 |}
              0 "42" [] eq_refl eq_refl ltac:(discriminate) Hp)
    as (f' & m & Hf' & Hv & Ha & _ & Hr).
  exists f', m. split; [exact Hf'|]. split; [exact Hv|].
  split; [exact Ha|exact Hr].
Defined.

Lemma BindWithoutValidation_error_unclassified_witness :
  errors_As (Some sampleConversionError) = None ∧
  w_status (HandleError sample_text newWriter sampleRequest
              (Some sampleConversionError) []) = Some 500.
Proof.
  assert (BindWithoutValidation sample_Quote sample_scan sample_equalFold sample_typeError
            sampleBadContext sampleTarget
          = (sampleHalfBound, Some sampleConversionError))
    as Hb by (vm_compute; reflexivity).
  destruct (BindWithoutValidation_error_unclassified sample_Quote sample_text
              sample_scan sample_equalFold sample_typeError sampleBadContext sampleTarget
              sampleHalfBound sampleConversionError Hb)
    as (_ & Has & Hresp).
  split; [exact Has|].
  destruct (Hresp newWriter sampleRequest eq_refl) as (Hs & _). exact Hs.
Defined.

Lemma Bind_error_is_bad_request_witness :
  w_status (HandleError sample_text newWriter sampleRequest
              (Some (ptrHttpError
                       (mkHttpError (Some sampleConversionError)
                          "failed to read inputs" 400))) [503]) = Some 400.
Proof.
  assert (Bind sample_Quote sample_scan sample_equalFold sample_typeError sample_validator
            sampleBadContext sampleTarget
          = (sampleHalfBound,
             Some (mkHttpError (Some sampleConversionError)
                     "failed to read inputs" 400)))
    as Hb by (vm_compute; reflexivity).
  destruct (Bind_error_is_bad_request sample_Quote sample_text sample_scan sample_equalFold
              sample_typeError sample_validator sampleBadContext sampleTarget
              sampleHalfBound _ Hb) as (_ & _ & Hresp).
  exact (Hresp newWriter sampleRequest [503] eq_refl).
Defined.

Lemma Bind_success_iff_witness :
  BindWithoutValidation sample_Quote sample_scan sample_equalFold sample_typeError
    sampleJSONContext sampleTarget = (sampleDecoded, None) ∧
  sample_validator sampleDecoded = [].
Proof.
  apply (Bind_success_iff sample_Quote sample_scan sample_equalFold sample_typeError
           sample_validator sampleJSONContext sampleTarget sampleDecoded).
  vm_compute. reflexivity.
Defined.

Lemma Bind_message_names_every_field_witness :
  ∃ h pre post,
    Bind sample_Quote sample_scan sample_equalFold sample_typeError failing_validator
      sampleJSONContext sampleTarget = (sampleDecoded, Some h) ∧
    HttpError_Error h = pre +:+ "validation failed for Age" +:+ post.
Proof.
  assert (BindWithoutValidation sample_Quote sample_scan sample_equalFold sample_typeError
            sampleJSONContext sampleTarget = (sampleDecoded, None))
    as Hb by (vm_compute; reflexivity).
  assert ("Age" ∈ failing_validator sampleDecoded) as Hin
    by (right; left).
  exact (Bind_message_names_every_field sample_Quote sample_scan sample_equalFold
           sample_typeError failing_validator sampleJSONContext sampleTarget
           sampleDecoded "Age" Hb Hin).
Defined.


Lemma Handler_response_witness :
  ∃ response,
    Handler sample_text failingFunc newWriter sampleRequest
      = Returned response ∧
    w_status response = Some 500.
Proof.
  destruct (Handler_response sample_text failingFunc newWriter sampleRequest
              newWriter (anError (errorString "boom")) eq_refl)
    as (_ & Hplain & _).
  destruct (Hplain (errorString "boom") eq_refl eq_refl eq_refl)
    as (response & Hr & Hs & _).
  exists response. split; [exact Hr | exact Hs].
Defined.

Lemma ExampleHandler_response_witness :
  ∃ response,
    Handler sample_text
      (throughContext
         (ExampleHandler sample_Quote sample_text sample_scan
            sample_equalFold sample_typeError sample_validator))
      newWriter (request sampleJSONContext) = Returned response ∧
    w_status response = Some 200.
Proof.
  destruct (ExampleHandler_response sample_Quote sample_text sample_scan
              sample_equalFold sample_typeError sample_validator newWriter
              (request sampleJSONContext) eq_refl)
    as [(data & response & _ & Hr & Hs & _)
       |(data & h & response & Hb & _)].
  - exists response. split; [exact Hr | exact Hs].
  - exfalso. vm_compute in Hb. discriminate Hb.
Defined.

Lemma unreadable_body_keeps_query_witness :
  BindWithoutValidation sample_Quote sample_scan sample_equalFold sample_typeError
    sampleMalformedContext sampleTarget =
  (sampleBound,
   Some (errorString "failed to decode JSON body: invalid character")).
Proof.
  assert (BindQueryParams sample_Quote sampleMalformedContext sampleTarget
            (URL_Query (request sampleMalformedContext))
          = (sampleBound, None)) as Hq by (vm_compute; reflexivity).
  destruct (unreadable_body_keeps_query sample_Quote sample_scan sample_equalFold
              sample_typeError sampleMalformedContext sampleTarget sampleBound
              "invalid character" Hq eq_refl eq_refl) as (Hb & _).
  exact Hb.
Defined.
